(** * DSFB dashboard front-end: route guard, login form and settings forms

  A shallow embedding of the control logic of the repository:

  - [Middleware.middleware]      (middleware.ts, the route guard),
  - [LoginForm.getErrorMessage],
    [LoginForm.handleEmailLogin] (components/login-form.tsx),
  - [PasswordForm.handleSubmit]  (the password settings form),
  - [ProfileForm.handleSubmit]   (the profile settings form),
  - [Sidebar.handleOpenChange] and the state of [SidebarProvider]
    (components/ui/sidebar.tsx).

  JavaScript strings are modelled by [string]; one character of the model
  stands for one code unit, so [String.length] is the [.length] of the
  source.  The identity provider's SDK is an oracle passed to the handlers;
  the effects of a handler (SDK calls, toasts, navigation, state setters,
  console output) are recorded in order in a trace. *)

From Stdlib Require Import String Ascii List Bool Arith Lia.
From stdpp Require Import base option gmap strings.
Import ListNotations.

Local Open Scope string_scope.
Local Open Scope list_scope.

(* ===================================================================== *)
(** ** The route guard *)
(* ===================================================================== *)

Module Middleware.

(** An entry of the request's cookie jar, as [RequestCookies.get] hands it
    out: an object [{ name, value }].  Such an object is truthy whatever
    its [value] is, the empty string included. *)
Record RequestCookie := mkCookie {
  cookie_name  : string;
  cookie_value : string
}.

(** A parsed URL: [origin] is scheme and authority. *)
Record URL := mkURL {
  origin   : string;
  pathname : string;
  search   : string;
  hash     : string
}.

(** The part of [NextRequest] a middleware can look at.  [url] is the
    request URL ([request.url], here already parsed), [nextUrl] the URL
    the router matched. *)
Record NextRequest := mkRequest {
  method  : string;
  url     : URL;
  nextUrl : URL;
  headers : list (string * string);
  cookies : gmap string RequestCookie
}.

Inductive NextResponse :=
| Redirect (location : URL)
| Next.

(** [new URL(path, base)] for a path-absolute reference without query or
    fragment: scheme and authority come from the base, the rest from the
    reference. *)
Definition new_URL (path : string) (base : URL) : URL :=
  {| origin := origin base; pathname := path; search := ""; hash := "" |}.

(** [request.cookies.get(name)]: the cookie, or [None] for [undefined]. *)
Definition cookies_get (request : NextRequest) (name : string)
  : option RequestCookie :=
  cookies request !! name.

(** Truthiness of a value of type [RequestCookie | undefined]. *)
Definition truthy (token : option RequestCookie) : bool :=
  match token with
  | Some _ => true
  | None => false
  end.

Definition middleware (request : NextRequest) : NextResponse :=
  let isLoginPage := String.eqb (pathname (nextUrl request)) "/login" in
  let token := cookies_get request "auth-token" in
  if negb (truthy token) && negb isLoginPage then
    Redirect (new_URL "/login" (url request))
  else if truthy token && isLoginPage then
    Redirect (new_URL "/dashboard" (url request))
  else
    Next.

(** What the guard decided, without the origin the redirect inherits from
    the request URL. *)
Inductive Decision :=
| RedirectTo (path : string)
| PassThrough.

Definition decision (r : NextResponse) : Decision :=
  match r with
  | Redirect u => RedirectTo (pathname u)
  | Next => PassThrough
  end.

Definition has_auth_token (request : NextRequest) : bool :=
  truthy (cookies_get request "auth-token").

(** The guard as the specification words it: one conditional, which
    redirects exactly when "cookie present" and "on the login page" agree,
    to "/login" without the cookie and to "/dashboard" with it. *)
Definition middleware_spec (request : NextRequest) : NextResponse :=
  let present := has_auth_token request in
  let onLogin := String.eqb (pathname (nextUrl request)) "/login" in
  if Bool.eqb present onLogin then
    Redirect (new_URL (if present then "/dashboard" else "/login")
                      (url request))
  else
    Next.

End Middleware.


(* ===================================================================== *)
(** ** String methods used by the forms *)
(* ===================================================================== *)

Module JsString.

(** The white space and line terminators [trim] removes, among the code
    units the model has: TAB, LF, VT, FF, CR, SPACE and NBSP. *)
Definition is_white_space (c : ascii) : bool :=
  match nat_of_ascii c with
  | 9 | 10 | 11 | 12 | 13 | 32 | 160 => true
  | _ => false
  end.

(** [s.split(sep)] for a separator of one code unit. *)
Fixpoint split (sep : ascii) (s : string) : list string :=
  match s with
  | EmptyString => [EmptyString]
  | String c rest =>
      if Ascii.eqb c sep then EmptyString :: split sep rest
      else match split sep rest with
           | [] => [String c EmptyString]
           | w :: ws => String c w :: ws
           end
  end.

Fixpoint trimStart (s : string) : string :=
  match s with
  | EmptyString => EmptyString
  | String c rest => if is_white_space c then trimStart rest else s
  end.

Fixpoint trimEnd (s : string) : string :=
  match s with
  | EmptyString => EmptyString
  | String c rest =>
      match trimEnd rest with
      | EmptyString => if is_white_space c then EmptyString
                       else String c EmptyString
      | kept => String c kept
      end
  end.

(** [s.trim()] *)
Definition trim (s : string) : string := trimEnd (trimStart s).

(** [a[i]]: [None] stands for [undefined]. *)
Definition index (a : list string) (i : nat) : option string := nth_error a i.

(** [x || d] for [x : string | undefined]: the empty string is falsy. *)
Definition or_else (x : option string) (d : string) : string :=
  match x with
  | None => d
  | Some EmptyString => d
  | Some s => s
  end.

Definition first_char (s : string) : option ascii :=
  match s with
  | EmptyString => None
  | String c _ => Some c
  end.

Fixpoint last_char (s : string) : option ascii :=
  match s with
  | EmptyString => None
  | String c EmptyString => Some c
  | String _ rest => last_char rest
  end.

Definition is_white_space_opt (c : option ascii) : bool :=
  match c with
  | Some c => is_white_space c
  | None => false
  end.

Definition has_leading_white_space (s : string) : bool :=
  is_white_space_opt (first_char s).

Definition has_trailing_white_space (s : string) : bool :=
  is_white_space_opt (last_char s).

Fixpoint no_white_space (s : string) : bool :=
  match s with
  | EmptyString => true
  | String c rest => negb (is_white_space c) && no_white_space rest
  end.

(** A word: at least one code unit, none of them white space. *)
Definition is_word (s : string) : bool :=
  negb (String.eqb s EmptyString) && no_white_space s.

End JsString.

(* ===================================================================== *)
(** ** The identity provider's SDK and the effects of a handler *)
(* ===================================================================== *)

Module Runtime.

(** The signed-in user as the SDK exposes it; [None] stands for [null]. *)
Record User := mkUser {
  uid         : string;
  email       : option string;
  displayName : option string
}.

(** What a rejected SDK promise throws. *)
Record AuthError := mkAuthError {
  code    : string;
  message : string
}.

(** [EmailAuthProvider.credential(email, password)] builds this object; it
    does not talk to the provider. *)
Record AuthCredential := credential {
  cred_email    : string;
  cred_password : string
}.

(** The asynchronous operations of the SDK the forms await. *)
Inductive SdkOp :=
| signInWithEmailAndPassword (email password : string)
| reauthenticateWithCredential (user : User) (cred : AuthCredential)
| updatePassword (user : User) (newPassword : string)
| updateProfile (user : User) (newDisplayName : string).

(** The provider: for each operation, [None] when the promise resolves and
    [Some e] when it rejects with [e]. *)
Definition Sdk := SdkOp -> option AuthError.

Inductive ToastVariant := Default | Destructive.

Record Toast := mkToast {
  variant     : ToastVariant;
  title       : string;
  description : string
}.

(** The effects of a handler, [F] being the type of the form's [formData]. *)
Inductive Event (F : Type) :=
| PreventDefault
| SetLoading (b : bool)
| SetFormData (v : F)
| SdkCall (op : SdkOp) (outcome : option AuthError)
| ToastShown (t : Toast)
| RouterPush (path : string)
| ConsoleError (label detail : string).

Arguments PreventDefault {F}.
Arguments SetLoading {F} b.
Arguments SetFormData {F} v.
Arguments SdkCall {F} op outcome.
Arguments ToastShown {F} t.
Arguments RouterPush {F} path.
Arguments ConsoleError {F} label detail.

Inductive Completion (A : Type) :=
| Normal (a : A)
| Throw (e : AuthError).

Arguments Normal {A} a.
Arguments Throw {A} e.

(** A computation: how it completes, and the effects it had, in order. *)
Definition M (F A : Type) : Type := Completion A * list (Event F).

Definition ret {F A} (a : A) : M F A := (Normal a, []).

Definition bind {F A B} (m : M F A) (k : A -> M F B) : M F B :=
  match m with
  | (Normal a, t) => let (r, t') := k a in (r, t ++ t')
  | (Throw e, t) => (Throw e, t)
  end.

Definition emit {F} (ev : Event F) : M F unit := (Normal tt, [ev]).

(** [await op]: the call is made, and its rejection is thrown. *)
Definition await {F} (sdk : Sdk) (op : SdkOp) : M F unit :=
  match sdk op with
  | None => (Normal tt, [SdkCall op None])
  | Some e => (Throw e, [SdkCall op (Some e)])
  end.

(** [try { body } catch (error) { handler error } finally { final }] *)
Definition try_catch_finally {F}
  (body : M F unit) (handler : AuthError -> M F unit) (final : M F unit)
  : M F unit :=
  let (r, t) := body in
  let (r1, t1) := match r with
                  | Normal a => (Normal a, [])
                  | Throw e => handler e
                  end in
  let (r2, t2) := final in
  (match r2 with Throw e => Throw e | Normal _ => r1 end, t ++ t1 ++ t2).

Definition completion {F A} (m : M F A) : Completion A := fst m.
Definition trace {F A} (m : M F A) : list (Event F) := snd m.

(** Reading a trace. *)
Definition sdk_calls {F} (t : list (Event F)) : list SdkOp :=
  flat_map (fun ev => match ev with SdkCall op _ => [op] | _ => [] end) t.

Definition toasts {F} (t : list (Event F)) : list Toast :=
  flat_map (fun ev => match ev with ToastShown x => [x] | _ => [] end) t.

Definition pushes {F} (t : list (Event F)) : list string :=
  flat_map (fun ev => match ev with RouterPush p => [p] | _ => [] end) t.

(** The component's state and the route once the effects have been applied
    to the values they had when the handler was called. *)
Definition final_loading {F} (loading0 : bool) (t : list (Event F)) : bool :=
  fold_left (fun b ev => match ev with SetLoading b' => b' | _ => b end)
            t loading0.

Definition final_formData {F} (formData0 : F) (t : list (Event F)) : F :=
  fold_left (fun v ev => match ev with SetFormData v' => v' | _ => v end)
            t formData0.

Definition final_route {F} (route0 : string) (t : list (Event F)) : string :=
  fold_left (fun r ev => match ev with RouterPush p => p | _ => r end)
            t route0.

End Runtime.

Declare Scope handler_scope.
Delimit Scope handler_scope with handler.
Notation "x <- m ;; k" := (Runtime.bind m (fun x => k))
  (at level 100, m at next level, right associativity) : handler_scope.
Notation "m ;; k" := (Runtime.bind m (fun _ => k))
  (at level 100, right associativity) : handler_scope.

Local Open Scope handler_scope.

(* ===================================================================== *)
(** ** components/login-form.tsx *)
(* ===================================================================== *)

Module LoginForm.
Import Runtime.

Definition fallback_message : string :=
  "An error occurred while signing in. Please try again".

(** The [switch] over [error.code]; its [default] branch also writes to the
    console. *)
Definition getErrorMessage {F} (error : AuthError) : M F string :=
  let c := code error in
  if String.eqb c "auth/invalid-email" then
    ret "Please enter a valid email address"
  else if String.eqb c "auth/user-disabled" then
    ret "This account has been disabled"
  else if String.eqb c "auth/user-not-found"
          || String.eqb c "auth/wrong-password"
          || String.eqb c "auth/invalid-credential" then
    ret "Invalid email or password combination"
  else if String.eqb c "auth/too-many-requests" then
    ret "Too many failed attempts. Please try again later"
  else if String.eqb c "auth/network-request-failed" then
    ret "Network error. Please check your connection"
  else
    (emit (ConsoleError "Firebase Auth Error:" c) ;;
     ret fallback_message).

(** The message alone; [getErrorMessage] never throws. *)
Definition message_of (error : AuthError) : string :=
  match completion (@getErrorMessage Empty_set error) with
  | Normal m => m
  | Throw _ => EmptyString
  end.

(** The codes that have a [case] label of their own. *)
Definition handled_codes : list string :=
  [ "auth/invalid-email"; "auth/user-disabled"; "auth/user-not-found";
    "auth/wrong-password"; "auth/invalid-credential";
    "auth/too-many-requests"; "auth/network-request-failed" ].

Definition login_failed (msg : string) : Toast :=
  {| variant := Destructive; title := "Login Failed"; description := msg |}.

(** The login form keeps [email] and [password] in state of their own and
    the handler sets neither, hence [Empty_set] for the form data. *)
Definition handleEmailLogin (sdk : Sdk) (email password : string)
  : M Empty_set unit :=
  emit PreventDefault ;;
  emit (SetLoading true) ;;
  try_catch_finally
    (await sdk (signInWithEmailAndPassword email password) ;;
     emit (RouterPush "/dashboard"))
    (fun error =>
       msg <- getErrorMessage error ;;
       emit (ToastShown (login_failed msg)))
    (emit (SetLoading false)).

End LoginForm.

(* ===================================================================== *)
(** ** The password form *)
(* ===================================================================== *)

Module PasswordForm.
Import Runtime.

Record FormData := mkFormData {
  currentPassword : string;
  newPassword     : string;
  confirmPassword : string
}.

Definition cleared : FormData :=
  {| currentPassword := ""; newPassword := ""; confirmPassword := "" |}.

(** [user?.email] when it is truthy, together with the user; [None] when
    the user is missing or the address is [null] or empty. *)
Definition user_email (user : option User) : option (User * string) :=
  match user with
  | None => None
  | Some u =>
      match email u with
      | None => None
      | Some addr => if String.eqb addr "" then None else Some (u, addr)
      end
  end.

Definition password_mismatch : Toast :=
  {| variant := Destructive; title := "Password Mismatch";
     description := "New password and confirm password do not match." |}.

Definition invalid_password : Toast :=
  {| variant := Destructive; title := "Invalid Password";
     description := "Password must be at least 6 characters long." |}.

Definition password_updated : Toast :=
  {| variant := Default; title := "Password Updated";
     description := "Your password has been updated successfully." |}.

Definition update_failed (msg : string) : Toast :=
  {| variant := Destructive; title := "Update Failed"; description := msg |}.

Definition error_message (error : AuthError) : string :=
  if String.eqb (code error) "auth/wrong-password"
  then "Current password is incorrect."
  else "Failed to update password. Please try again.".

Definition handleSubmit (sdk : Sdk) (user : option User) (formData : FormData)
  : M FormData unit :=
  emit PreventDefault ;;
  match user_email user with
  | None => ret tt
  | Some (u, addr) =>
      if negb (String.eqb (newPassword formData) (confirmPassword formData))
      then emit (ToastShown password_mismatch)
      else if Nat.ltb (String.length (newPassword formData)) 6
      then emit (ToastShown invalid_password)
      else
        emit (SetLoading true) ;;
        try_catch_finally
          (let cred := credential addr (currentPassword formData) in
           await sdk (reauthenticateWithCredential u cred) ;;
           await sdk (updatePassword u (newPassword formData)) ;;
           emit (SetFormData cleared) ;;
           emit (ToastShown password_updated))
          (fun error => emit (ToastShown (update_failed (error_message error))))
          (emit (SetLoading false))
  end.

(** The submissions the local checks turn down. *)
Definition rejected_locally (formData : FormData) : Prop :=
  newPassword formData <> confirmPassword formData
  \/ String.length (newPassword formData) < 6.

(** Both awaited calls were made and resolved. *)
Definition both_calls_succeeded (t : list (Event FormData)) : Prop :=
  (exists u cred, In (SdkCall (reauthenticateWithCredential u cred) None) t)
  /\ (exists u pw, In (SdkCall (updatePassword u pw) None) t).

End PasswordForm.

(* ===================================================================== *)
(** ** The profile form *)
(* ===================================================================== *)

Module ProfileForm.
Import Runtime JsString.

Record FormData := mkFormData {
  firstName : string;
  lastName  : string
}.

(** [user?.displayName?.split(" ")[i]] *)
Definition name_part (user : option User) (i : nat) : option string :=
  match user with
  | None => None
  | Some u =>
      match displayName u with
      | None => None
      | Some n => index (split " " n) i
      end
  end.

(** The initial value given to [useState]. *)
Definition initialFormData (user : option User) : FormData :=
  {| firstName := or_else (name_part user 0) "";
     lastName  := or_else (name_part user 1) "" |}.

Definition fullName (formData : FormData) : string :=
  trim (firstName formData +:+ " " +:+ lastName formData).

Definition profile_updated : Toast :=
  {| variant := Default; title := "Profile Updated";
     description := "Your profile information has been updated successfully." |}.

Definition update_failed : Toast :=
  {| variant := Destructive; title := "Update Failed";
     description := "Failed to update profile. Please try again." |}.

Definition handleSubmit (sdk : Sdk) (user : option User) (formData : FormData)
  : M FormData unit :=
  emit PreventDefault ;;
  match user with
  | None => ret tt
  | Some u =>
      emit (SetLoading true) ;;
      try_catch_finally
        (await sdk (updateProfile u (fullName formData)) ;;
         emit (ToastShown profile_updated))
        (fun _ => emit (ToastShown update_failed))
        (emit (SetLoading false))
  end.

End ProfileForm.

(* ===================================================================== *)
(** ** Sample requests, users and providers *)
(* ===================================================================== *)

Module Samples.
Import Middleware Runtime.

(** A visitor without cookies asking for a page, and a signed-in one asking
    for the login page. *)
Definition anonymous_request : NextRequest :=
  {| method := "GET";
     url := mkURL "https://app.example" "/reports" "?year=2024" "";
     nextUrl := mkURL "https://app.example" "/reports" "?year=2024" "";
     headers := [];
     cookies := ∅ |}.

Definition signed_in_request (value : string) : NextRequest :=
  {| method := "GET";
     url := mkURL "https://app.example" "/login" "" "";
     nextUrl := mkURL "https://app.example" "/login" "" "";
     headers := [("accept", "text/html")];
     cookies := {[ "auth-token" := mkCookie "auth-token" value ]} |}.

(** The same page asked for through another origin, with an empty token
    and a second cookie. *)
Definition other_origin_request : NextRequest :=
  {| method := "POST";
     url := mkURL "http://other.example:8080" "/login" "?next=/x" "";
     nextUrl := mkURL "http://other.example:8080" "/login" "?next=/x" "";
     headers := [("user-agent", "curl")];
     cookies := {[ "auth-token" := mkCookie "auth-token" "";
                   "theme" := mkCookie "theme" "dark" ]} |}.

(** The login page asked for without cookies. *)
Definition anonymous_login_request : NextRequest :=
  {| method := "GET";
     url := mkURL "https://app.example" "/login" "" "";
     nextUrl := mkURL "https://app.example" "/login" "" "";
     headers := [];
     cookies := ∅ |}.

Definition ada : User :=
  mkUser "u-17" (Some "ada@example.org") (Some "Ada Lovelace").

(** A provider that accepts everything, one that rejects everything with a
    given code, and one that only rejects the reauthentication. *)
Definition accepting : Sdk := fun _ => None.

Definition rejecting (c : string) : Sdk := fun _ => Some (mkAuthError c "").

Definition wrong_password : Sdk := fun op =>
  match op with
  | reauthenticateWithCredential _ _ =>
      Some (mkAuthError "auth/wrong-password" "")
  | _ => None
  end.

End Samples.

(* ===================================================================== *)
(** ** The inputs of the settings forms *)
(* ===================================================================== *)

(** The [onChange] handlers of the password form's inputs, each
    [setFormData(prev => ({ ...prev, field: e.target.value }))]. *)
Module PasswordFormInputs.
Import PasswordForm.

Definition onChange_currentPassword (value : string) (prev : FormData)
  : FormData :=
  {| currentPassword := value;
     newPassword := newPassword prev;
     confirmPassword := confirmPassword prev |}.

Definition onChange_newPassword (value : string) (prev : FormData)
  : FormData :=
  {| currentPassword := currentPassword prev;
     newPassword := value;
     confirmPassword := confirmPassword prev |}.

Definition onChange_confirmPassword (value : string) (prev : FormData)
  : FormData :=
  {| currentPassword := currentPassword prev;
     newPassword := newPassword prev;
     confirmPassword := value |}.

(** The state [useState] starts from. *)
Definition initialFormData : FormData :=
  {| currentPassword := ""; newPassword := ""; confirmPassword := "" |}.

End PasswordFormInputs.

(** The [onChange] handlers of the profile form's inputs. *)
Module ProfileFormInputs.
Import ProfileForm.

Definition onChange_firstName (value : string) (prev : FormData) : FormData :=
  {| firstName := value; lastName := lastName prev |}.

Definition onChange_lastName (value : string) (prev : FormData) : FormData :=
  {| firstName := firstName prev; lastName := value |}.

End ProfileFormInputs.

(* ===================================================================== *)
(** ** Reading traces and strings *)
(* ===================================================================== *)

Module TraceChecks.
Import Runtime.

(** The argument of the last [setLoading] call of a trace, [requested]
    when the trace has none.  This is what the handler asked for, not what
    the component shows: React applies the update at the next render, so at
    the moment of a later event of the same handler the flag and the submit
    button may still be as they were. *)
Definition last_setLoading_from {F}
  (requested : option bool) (t : list (Event F)) : option bool :=
  fold_left (fun r ev => match ev with SetLoading b => Some b | _ => r end)
            t requested.

Definition last_setLoading {F} (t : list (Event F)) : option bool :=
  last_setLoading_from None t.

(** Every SDK call of the trace comes after a [setLoading(true)] that no
    [setLoading(false)] followed.  [requested] is the argument of the last
    [setLoading] call before the trace, if any. *)
Fixpoint calls_after_setLoading_true {F}
  (requested : option bool) (t : list (Event F)) : bool :=
  match t with
  | [] => true
  | SetLoading b :: rest => calls_after_setLoading_true (Some b) rest
  | SdkCall _ _ :: rest =>
      match requested with
      | Some true => calls_after_setLoading_true requested rest
      | _ => false
      end
  | _ :: rest => calls_after_setLoading_true requested rest
  end.

(** The lines written to the console. *)
Definition console {F} (t : list (Event F)) : list (string * string) :=
  flat_map (fun ev => match ev with
                      | ConsoleError label detail => [(label, detail)]
                      | _ => []
                      end) t.

(** The values given to [setFormData]. *)
Definition formData_writes {F} (t : list (Event F)) : list F :=
  flat_map (fun ev => match ev with SetFormData v => [v] | _ => [] end) t.

(** A string of white space only (the empty string included). *)
Fixpoint all_white_space (s : string) : bool :=
  match s with
  | EmptyString => true
  | String c rest => JsString.is_white_space c && all_white_space rest
  end.

End TraceChecks.

(* ===================================================================== *)
(** ** components/ui/sidebar.tsx: the provider's state *)
(* ===================================================================== *)

Module Sidebar.

(** What a call of the context's [onOpenChange] does: the value it gives to
    [setIsOpen], if any, and the values it hands to the callback of the
    provider's owner, in order. *)
Record Update := mkUpdate {
  set_isOpen : option bool;
  notified   : list bool
}.

Record SidebarContextValue := mkContext {
  isOpen        : bool;
  isMobile      : bool;
  isCollapsible : bool;
  onOpenChange  : bool -> Update
}.

(** The default value of [SidebarContext], seen outside a provider. *)
Definition default_context : SidebarContextValue :=
  {| isOpen := true;
     isMobile := false;
     isCollapsible := false;
     onOpenChange := fun _ => {| set_isOpen := None; notified := [] |} |}.

(** The props of [SidebarProvider] besides [children]; [None] stands for a
    prop that was not passed.  The owner's callback is opaque, so only its
    presence is kept: its calls are recorded in [notified]. *)
Record SidebarProviderProps := mkProps {
  defaultOpen        : option bool;
  has_onOpenChange   : bool
}.

(** [React.useState(defaultOpen)], with the default [defaultOpen = true]. *)
Definition initial_isOpen (props : SidebarProviderProps) : bool :=
  match defaultOpen props with
  | Some b => b
  | None => true
  end.

(** The body of the effect that depends on [isMobile]: the value it gives
    to [setIsOpen]. *)
Definition mobile_effect (mobile : bool) : bool :=
  if mobile then false else true.

(** [handleOpenChange]: [setIsOpen(value)], then [onOpenChange?.(value)]. *)
Definition handleOpenChange (props : SidebarProviderProps) (value : bool)
  : Update :=
  {| set_isOpen := Some value;
     notified := if has_onOpenChange props then [value] else [] |}.

(** A mounted provider: its props, what [useIsMobile] returns and its
    state. *)
Record Provider := mkProvider {
  props      : SidebarProviderProps;
  mobile     : bool;
  open_state : bool
}.

(** The context value a render of the provider passes down. *)
Definition render (p : Provider) : SidebarContextValue :=
  {| isOpen := open_state p;
     isMobile := mobile p;
     isCollapsible := negb (mobile p);
     onOpenChange := handleOpenChange (props p) |}.

(** The first render uses the initial state. *)
Definition first_render (ps : SidebarProviderProps) (m : bool) : Provider :=
  {| props := ps; mobile := m; open_state := initial_isOpen ps |}.

(** The effect runs: [setIsOpen] is given what its body computes from the
    [isMobile] of the render. *)
Definition run_effect (p : Provider) : Provider :=
  {| props := props p; mobile := mobile p;
     open_state := mobile_effect (mobile p) |}.

(** Mounting: the first render, then the effect, which runs after every
    first render. *)
Definition mount (ps : SidebarProviderProps) (m : bool) : Provider :=
  run_effect (first_render ps m).

(** [useIsMobile] returns a new value: the provider renders with it, and the
    effect runs again when the value differs from the one of the previous
    render (its dependency list is [[isMobile]]).  Nothing is handed to the
    owner's callback. *)
Definition viewport_change (p : Provider) (m : bool) : Provider * list bool :=
  if Bool.eqb m (mobile p) then (p, [])
  else (run_effect {| props := props p; mobile := m;
                      open_state := open_state p |},
        []).

Definition apply_update (p : Provider) (u : Update) : Provider * list bool :=
  (match set_isOpen u with
   | Some v => {| props := props p; mobile := mobile p; open_state := v |}
   | None => p
   end,
   notified u).

(** [SidebarTrigger]'s [onClick], for the context value it rendered with:
    [onOpenChange(!isOpen)]. *)
Definition trigger_onClick (ctx : SidebarContextValue) : Update :=
  onOpenChange ctx (negb (isOpen ctx)).

(** A click on a trigger below the provider, after which it renders
    again. *)
Definition click (p : Provider) : Provider * list bool :=
  apply_update p (trigger_onClick (render p)).

(** The [data-state] attribute of [Sidebar], [SidebarInset] and the menu
    buttons. *)
Definition data_state (ctx : SidebarContextValue) : string :=
  if isOpen ctx then "open" else "closed".

(** What the user or the browser does to a mounted provider. *)
Inductive Action :=
| Click
| Viewport (m : bool).

Definition step (p : Provider) (a : Action) : Provider * list bool :=
  match a with
  | Click => click p
  | Viewport m => viewport_change p m
  end.

Fixpoint clicks (actions : list Action) : nat :=
  match actions with
  | [] => 0
  | Click :: rest => S (clicks rest)
  | Viewport _ :: rest => clicks rest
  end.

(** A run of actions: the provider at the end and everything the owner's
    callback was handed. *)
Fixpoint run (p : Provider) (actions : list Action) : Provider * list bool :=
  match actions with
  | [] => (p, [])
  | a :: rest =>
      let (p1, n1) := step p a in
      let (p2, n2) := run p1 rest in
      (p2, n1 ++ n2)
  end.

End Sidebar.

(* ===================================================================== *)
(** ** Theorems about the route guard *)
(* ===================================================================== *)

Module MiddlewareFacts.
Import Middleware Samples.

Lemma has_auth_token_present (request : NextRequest) :
  has_auth_token request = true <-> is_Some (cookies request !! "auth-token").
Proof.
  unfold has_auth_token, cookies_get.
  destruct (cookies request !! "auth-token") as [c|]; simpl; split.
  - intros _. exists c. reflexivity.
  - reflexivity.
  - discriminate.
  - intros [c Hc]. discriminate Hc.
Qed.

Lemma has_auth_token_absent (request : NextRequest) :
  has_auth_token request = false <-> cookies request !! "auth-token" = None.
Proof.
  unfold has_auth_token, cookies_get.
  destruct (cookies request !! "auth-token"); simpl; split;
    congruence.
Qed.

(** The guard reads three things of the request and nothing else. *)
Lemma middleware_cases (request : NextRequest) :
  middleware request =
    match has_auth_token request,
          String.eqb (pathname (nextUrl request)) "/login" with
    | false, false => Redirect (new_URL "/login" (url request))
    | true, true => Redirect (new_URL "/dashboard" (url request))
    | _, _ => Next
    end.
Proof.
  unfold middleware, has_auth_token.
  destruct (truthy _), (String.eqb _ _); reflexivity.
Qed.

Lemma has_auth_token_congr (r1 r2 : NextRequest) :
  (is_Some (cookies r1 !! "auth-token")
   <-> is_Some (cookies r2 !! "auth-token")) ->
  has_auth_token r1 = has_auth_token r2.
Proof.
  intros H.
  destruct (has_auth_token r1) eqn:E1, (has_auth_token r2) eqn:E2; trivial.
  - apply has_auth_token_present, H, has_auth_token_present in E1. congruence.
  - apply has_auth_token_present, H, has_auth_token_present in E2. congruence.
Qed.

(** C1: a request for a page other than "/login" that carries no
    "auth-token" cookie is answered by a redirect whose path is "/login"
    (resolved against the request URL). *)
Theorem middleware_redirects_anonymous (request : NextRequest) :
  pathname (nextUrl request) <> "/login" ->
  cookies request !! "auth-token" = None ->
  middleware request = Redirect (new_URL "/login" (url request))
  /\ decision (middleware request) = RedirectTo "/login".
Proof.
  intros Hpath Hcookie.
  assert (E : middleware request = Redirect (new_URL "/login" (url request))).
  { rewrite middleware_cases.
    apply has_auth_token_absent in Hcookie. rewrite Hcookie.
    apply String.eqb_neq in Hpath. rewrite Hpath. reflexivity. }
  split; [exact E | rewrite E; reflexivity].
Qed.

Lemma middleware_redirects_anonymous_witness :
  middleware anonymous_request
    = Redirect (mkURL "https://app.example" "/login" "" "")
  /\ decision (middleware anonymous_request) = RedirectTo "/login".
Proof.
  apply (middleware_redirects_anonymous anonymous_request).
  - discriminate.
  - reflexivity.
Defined.

(** C2: a request for "/login" that carries an "auth-token" cookie is
    redirected to "/dashboard"; a request that falls in neither redirect
    branch is passed through. *)
Theorem middleware_redirects_signed_in_or_passes (request : NextRequest) :
  (pathname (nextUrl request) = "/login" ->
   is_Some (cookies request !! "auth-token") ->
   middleware request = Redirect (new_URL "/dashboard" (url request))
   /\ decision (middleware request) = RedirectTo "/dashboard")
  /\
  (~ (pathname (nextUrl request) <> "/login"
      /\ cookies request !! "auth-token" = None) ->
   ~ (pathname (nextUrl request) = "/login"
      /\ is_Some (cookies request !! "auth-token")) ->
   middleware request = Next).
Proof.
  rewrite middleware_cases. split.
  - intros Hpath Hcookie.
    apply has_auth_token_present in Hcookie. rewrite Hcookie.
    apply String.eqb_eq in Hpath. rewrite Hpath. split; reflexivity.
  - intros Hno1 Hno2.
    destruct (has_auth_token request) eqn:Etok,
             (String.eqb (pathname (nextUrl request)) "/login") eqn:Epath;
      trivial.
    + exfalso. apply Hno2. split.
      * apply String.eqb_eq, Epath.
      * apply has_auth_token_present, Etok.
    + exfalso. apply Hno1. split.
      * apply String.eqb_neq, Epath.
      * apply has_auth_token_absent, Etok.
Qed.

Lemma middleware_redirects_signed_in_or_passes_witness :
  middleware (signed_in_request "t0k3n")
    = Redirect (mkURL "https://app.example" "/dashboard" "" "")
  /\ middleware anonymous_login_request = Next.
Proof.
  split.
  - apply (middleware_redirects_signed_in_or_passes
             (signed_in_request "t0k3n")).
    + reflexivity.
    + exists (mkCookie "auth-token" "t0k3n"). reflexivity.
  - apply (middleware_redirects_signed_in_or_passes anonymous_login_request).
    + intros [Hpath _]. apply Hpath. reflexivity.
    + intros [_ [c Hc]]. discriminate Hc.
Defined.

(** C3: the two-branch guard and the one-conditional definition of the
    specification give the same response on every request; in particular
    the guard redirects exactly when "cookie present" equals "path is
    /login". *)
Theorem middleware_refines_spec (request : NextRequest) :
  middleware request = middleware_spec request
  /\ ((exists target, middleware request = Redirect target)
      <-> has_auth_token request
          = String.eqb (pathname (nextUrl request)) "/login").
Proof.
  rewrite middleware_cases. unfold middleware_spec.
  destruct (has_auth_token request),
           (String.eqb (pathname (nextUrl request)) "/login"); simpl.
  - split; [reflexivity | split; [reflexivity | intros _; eauto]].
  - split; [reflexivity | split; [intros [t Ht]; discriminate Ht | discriminate]].
  - split; [reflexivity | split; [intros [t Ht]; discriminate Ht | discriminate]].
  - split; [reflexivity | split; [reflexivity | intros _; eauto]].
Qed.

(** With the origin of the request URL added, the whole response is
    determined. *)
Lemma middleware_response_determined (r1 r2 : NextRequest) :
  pathname (nextUrl r1) = pathname (nextUrl r2) ->
  has_auth_token r1 = has_auth_token r2 ->
  origin (url r1) = origin (url r2) ->
  middleware r1 = middleware r2.
Proof.
  intros Hpath Htok Horigin.
  rewrite !middleware_cases, Hpath, Htok. unfold new_URL.
  rewrite Horigin. reflexivity.
Qed.

(** C4: two requests with the same pathname that agree on whether the
    "auth-token" cookie is present get the same decision (the same redirect
    path, or both pass through), whatever the cookie's value and the rest
    of the requests are. *)
Theorem middleware_decision_noninterference (r1 r2 : NextRequest) :
  pathname (nextUrl r1) = pathname (nextUrl r2) ->
  (is_Some (cookies r1 !! "auth-token")
   <-> is_Some (cookies r2 !! "auth-token")) ->
  decision (middleware r1) = decision (middleware r2).
Proof.
  intros Hpath Hpresent.
  rewrite !middleware_cases, Hpath, (has_auth_token_congr r1 r2 Hpresent).
  destruct (has_auth_token r2),
           (String.eqb (pathname (nextUrl r2)) "/login"); reflexivity.
Qed.

Lemma middleware_decision_noninterference_witness :
  decision (middleware (signed_in_request "alice-session"))
  = decision (middleware other_origin_request).
Proof.
  apply (middleware_decision_noninterference
           (signed_in_request "alice-session") other_origin_request).
  - reflexivity.
  - split; intros _; eexists; vm_compute; reflexivity.
Defined.

End MiddlewareFacts.

(* ===================================================================== *)
(** ** Facts about [split] and [trim] *)
(* ===================================================================== *)

Module JsStringFacts.
Import JsString.

Lemma space_is_white_space : is_white_space " " = true.
Proof. reflexivity. Qed.

Lemma not_white_space_not_space (c : ascii) :
  is_white_space c = false -> Ascii.eqb c " " = false.
Proof.
  intros H. destruct (Ascii.eqb_spec c " ") as [->|]; [discriminate H | reflexivity].
Qed.

Lemma trimStart_no_leading (s : string) :
  has_leading_white_space (trimStart s) = false.
Proof.
  induction s as [|c rest IH]; simpl; [reflexivity|].
  destruct (is_white_space c) eqn:E; [exact IH|].
  unfold has_leading_white_space. simpl. exact E.
Qed.

Lemma trimEnd_cons (c : ascii) (s : string) :
  is_white_space c = false ->
  trimEnd (String c s) = String c (trimEnd s).
Proof.
  intros E. simpl. destruct (trimEnd s); [rewrite E|]; reflexivity.
Qed.

Lemma trimEnd_keeps_clean_start (s : string) :
  has_leading_white_space s = false ->
  has_leading_white_space (trimEnd s) = false.
Proof.
  destruct s as [|c rest]; [reflexivity|].
  intros E. change (is_white_space c = false) in E.
  rewrite (trimEnd_cons _ _ E). exact E.
Qed.

Lemma trimEnd_no_trailing (s : string) :
  has_trailing_white_space (trimEnd s) = false.
Proof.
  unfold has_trailing_white_space.
  induction s as [|c rest IH]; simpl; [reflexivity|].
  destruct (trimEnd rest) as [|d kept] eqn:E.
  - destruct (is_white_space c) eqn:Ec; simpl; [reflexivity | exact Ec].
  - exact IH.
Qed.

Lemma trim_clean (s : string) :
  has_leading_white_space (trim s) = false
  /\ has_trailing_white_space (trim s) = false.
Proof.
  unfold trim. split.
  - apply trimEnd_keeps_clean_start, trimStart_no_leading.
  - apply trimEnd_no_trailing.
Qed.

Lemma trimStart_id (s : string) :
  has_leading_white_space s = false -> trimStart s = s.
Proof.
  destruct s as [|c rest]; [reflexivity|].
  unfold has_leading_white_space. simpl. intros ->. reflexivity.
Qed.

Lemma trimEnd_id (s : string) :
  has_trailing_white_space s = false -> trimEnd s = s.
Proof.
  unfold has_trailing_white_space.
  induction s as [|c rest IH]; [reflexivity|].
  destruct rest as [|d rest'].
  - simpl. intros ->. reflexivity.
  - intros H. change (last_char (String c (String d rest')))
      with (last_char (String d rest')) in H.
    specialize (IH H).
    change (trimEnd (String c (String d rest')))
      with (match trimEnd (String d rest') with
            | EmptyString => if is_white_space c then EmptyString
                             else String c EmptyString
            | kept => String c kept
            end).
    rewrite IH. reflexivity.
Qed.

Lemma trim_id (s : string) :
  has_leading_white_space s = false ->
  has_trailing_white_space s = false ->
  trim s = s.
Proof.
  intros Hl Ht. unfold trim. rewrite (trimStart_id s Hl). apply trimEnd_id, Ht.
Qed.

Lemma append_empty_r (a b : string) : a +:+ b = EmptyString -> b = EmptyString.
Proof. destruct a; simpl; [trivial | discriminate]. Qed.

Lemma last_char_append (a b : string) :
  b <> EmptyString -> last_char (a +:+ b) = last_char b.
Proof.
  intros Hb. induction a as [|c a IH]; [reflexivity|].
  simpl. destruct (a +:+ b) eqn:E.
  - apply append_empty_r in E. contradiction.
  - exact IH.
Qed.

Lemma last_char_cons (c : ascii) (s : string) :
  s <> EmptyString -> last_char (String c s) = last_char s.
Proof. destruct s; [contradiction | reflexivity]. Qed.

Lemma word_nonempty (w : string) : is_word w = true -> w <> EmptyString.
Proof.
  unfold is_word. intros H. apply andb_true_iff in H as [H _].
  apply negb_true_iff, String.eqb_neq in H. exact H.
Qed.

Lemma word_no_white_space (w : string) :
  is_word w = true -> no_white_space w = true.
Proof. unfold is_word. intros H. apply andb_true_iff in H as [_ H]. exact H. Qed.

Lemma no_white_space_leading (s : string) :
  no_white_space s = true -> has_leading_white_space s = false.
Proof.
  destruct s as [|c rest]; [reflexivity|]. simpl. intros H.
  apply andb_true_iff in H as [H _]. apply negb_true_iff in H. exact H.
Qed.

Lemma no_white_space_trailing (s : string) :
  no_white_space s = true -> has_trailing_white_space s = false.
Proof.
  unfold has_trailing_white_space.
  induction s as [|c rest IH]; [reflexivity|]. simpl. intros H.
  apply andb_true_iff in H as [Hc Hrest]. apply negb_true_iff in Hc.
  destruct rest; [exact Hc | exact (IH Hrest)].
Qed.

(** Up to its first space, a string is the first piece of its [split]. *)
Lemma split_at_first_space (a rest : string) :
  no_white_space a = true ->
  split " " (a +:+ String " " rest) = a :: split " " rest.
Proof.
  induction a as [|c a IH]; intros H; [reflexivity|].
  simpl in H. apply andb_true_iff in H as [Hc Ha]. apply negb_true_iff in Hc.
  simpl. rewrite (not_white_space_not_space c Hc), (IH Ha). reflexivity.
Qed.

Lemma split_no_space (a : string) :
  no_white_space a = true -> split " " a = [a].
Proof.
  induction a as [|c a IH]; intros H; [reflexivity|].
  simpl in H. apply andb_true_iff in H as [Hc Ha]. apply negb_true_iff in Hc.
  simpl. rewrite (not_white_space_not_space c Hc), (IH Ha). reflexivity.
Qed.

Lemma split_two_words (a b : string) :
  is_word a = true -> is_word b = true ->
  split " " (a +:+ " " +:+ b) = [a; b].
Proof.
  intros Ha Hb.
  change (a +:+ " " +:+ b) with (a +:+ String " " b).
  rewrite (split_at_first_space a b (word_no_white_space a Ha)).
  rewrite (split_no_space b (word_no_white_space b Hb)). reflexivity.
Qed.

Lemma or_else_word (w : string) :
  w <> EmptyString -> or_else (Some w) EmptyString = w.
Proof. destruct w; [contradiction | reflexivity]. Qed.

Lemma trim_two_words (a b : string) :
  is_word a = true -> is_word b = true ->
  trim (a +:+ " " +:+ b) = a +:+ " " +:+ b.
Proof.
  intros Ha Hb. apply trim_id.
  - pose proof (no_white_space_leading a (word_no_white_space a Ha)) as H.
    pose proof (word_nonempty a Ha) as Hne.
    destruct a; [contradiction | exact H].
  - pose proof (no_white_space_trailing b (word_no_white_space b Hb)) as H.
    unfold has_trailing_white_space in *.
    change (a +:+ " " +:+ b) with (a +:+ String " " b).
    rewrite last_char_append by discriminate.
    rewrite last_char_cons by (apply word_nonempty, Hb). exact H.
Qed.

End JsStringFacts.

(* ===================================================================== *)
(** ** Theorems about the login form *)
(* ===================================================================== *)

Module LoginFormFacts.
Import Runtime LoginForm Samples.

(** Case analysis on every comparison the [switch] makes. *)
Ltac case_code :=
  repeat match goal with
         | |- context [String.eqb (code ?e) ?s] =>
             let E := fresh "E" in destruct (String.eqb (code e) s) eqn:E
         end.

Ltac code_is H := apply String.eqb_eq in H.

Lemma getErrorMessage_completion {F} (error : AuthError) :
  completion (@getErrorMessage F error) = Normal (message_of error).
Proof. unfold message_of, getErrorMessage. case_code; reflexivity. Qed.

Lemma message_of_nonempty (error : AuthError) :
  message_of error <> EmptyString.
Proof. unfold message_of, getErrorMessage. case_code; discriminate. Qed.

Lemma message_of_unhandled (error : AuthError) :
  ~ In (code error) handled_codes -> message_of error = fallback_message.
Proof.
  intros Hout. unfold message_of, getErrorMessage.
  case_code; try reflexivity; exfalso; apply Hout;
    repeat match goal with
           | H : String.eqb _ _ = true |- _ => code_is H; rewrite H
           end;
    simpl; tauto.
Qed.

Lemma message_of_handled (error : AuthError) :
  In (code error) handled_codes -> message_of error <> fallback_message.
Proof.
  destruct error as [c m]. unfold handled_codes. simpl.
  intros H.
  repeat (destruct H as [<-|H]; [vm_compute; discriminate|]).
  contradiction.
Qed.

Lemma handled_codes_distinct : List.NoDup handled_codes.
Proof.
  unfold handled_codes.
  repeat (constructor; [simpl; intros H;
                        repeat (destruct H as [H|H]; [discriminate H|]);
                        exact H|]).
  constructor.
Qed.

(** C5, as worded, counts six handled codes.  The [switch] has seven [case]
    labels, so no list of six codes can have every code outside it mapped to
    the fallback message. *)
Lemma getErrorMessage_not_six_handled :
  ~ exists six : list string,
      length six = 6
      /\ forall error : AuthError,
           ~ In (code error) six -> message_of error = fallback_message.
Proof.
  intros [six [Hlen Hout]].
  assert (Hincl : incl handled_codes six).
  { intros c Hc. destruct (in_dec string_dec c six) as [Hin|Hnot]; [exact Hin|].
    exfalso. apply (message_of_handled (mkAuthError c "")); [exact Hc|].
    apply Hout. exact Hnot. }
  pose proof (List.NoDup_incl_length handled_codes_distinct Hincl) as Hle.
  rewrite Hlen in Hle. simpl in Hle. lia.
Qed.

(** C5 (amended): [getErrorMessage] completes normally on every error, with
    a message that is not empty; "auth/user-not-found",
    "auth/wrong-password" and "auth/invalid-credential" give "Invalid email
    or password combination"; the handled codes are seven, and a code gets
    the fallback message exactly when it is none of them. *)
Theorem getErrorMessage_total_and_mapping (F : Type) (error : AuthError) :
  (exists msg, completion (@getErrorMessage F error) = Normal msg
               /\ msg = message_of error /\ msg <> EmptyString)
  /\ (In (code error) ["auth/user-not-found"; "auth/wrong-password";
                       "auth/invalid-credential"] ->
      message_of error = "Invalid email or password combination")
  /\ (length handled_codes = 7 /\ List.NoDup handled_codes)
  /\ (~ In (code error) handled_codes <->
      message_of error = fallback_message).
Proof.
  split; [|split; [|split]].
  - exists (message_of error). split; [apply getErrorMessage_completion|].
    split; [reflexivity | apply message_of_nonempty].
  - destruct error as [c m]. simpl. intros H.
    repeat (destruct H as [<-|H]; [reflexivity|]). contradiction.
  - split; [reflexivity | apply handled_codes_distinct].
  - split; [apply message_of_unhandled|].
    intros Hmsg Hin. exact (message_of_handled error Hin Hmsg).
Qed.

Lemma getErrorMessage_total_and_mapping_witness :
  message_of (mkAuthError "auth/wrong-password" "bad password")
    = "Invalid email or password combination"
  /\ message_of (mkAuthError "auth/internal-error" "boom") = fallback_message.
Proof.
  split.
  - apply (getErrorMessage_total_and_mapping Empty_set
             (mkAuthError "auth/wrong-password" "bad password")).
    simpl. tauto.
  - apply (getErrorMessage_total_and_mapping Empty_set
             (mkAuthError "auth/internal-error" "boom")).
    simpl. intros H.
    repeat (destruct H as [H|H]; [discriminate H|]). exact H.
Defined.

(** What [getErrorMessage] does besides returning the message: nothing, or
    one line on the console. *)
Lemma getErrorMessage_run {F} (error : AuthError) :
  exists log : list (Event F),
    getErrorMessage error = (Normal (message_of error), log)
    /\ (log = []
        \/ log = [ConsoleError "Firebase Auth Error:" (code error)]).
Proof.
  unfold message_of, getErrorMessage.
  case_code; eexists; (split; [reflexivity|]); auto.
Qed.

Lemma handleEmailLogin_rejected
  (sdk : Sdk) (email password : string) (error : AuthError)
  (log : list (Event Empty_set)) :
  sdk (signInWithEmailAndPassword email password) = Some error ->
  getErrorMessage error = (Normal (message_of error), log) ->
  handleEmailLogin sdk email password
  = (Normal tt,
     [PreventDefault; SetLoading true;
      SdkCall (signInWithEmailAndPassword email password) (Some error)]
     ++ log
     ++ [ToastShown (login_failed (message_of error)); SetLoading false]).
Proof.
  intros Hsdk Hrun. unfold handleEmailLogin, await.
  rewrite Hsdk. unfold try_catch_finally, bind at 3. cbn iota.
  unfold bind at 3. rewrite Hrun. simpl.
  rewrite <- app_assoc. reflexivity.
Qed.

Lemma handleEmailLogin_resolved (sdk : Sdk) (email password : string) :
  sdk (signInWithEmailAndPassword email password) = None ->
  handleEmailLogin sdk email password
  = (Normal tt,
     [PreventDefault; SetLoading true;
      SdkCall (signInWithEmailAndPassword email password) None;
      RouterPush "/dashboard"; SetLoading false]).
Proof.
  intros Hsdk. unfold handleEmailLogin, await. rewrite Hsdk. reflexivity.
Qed.

(** C7: when the sign-in call rejects, the handler pushes no route and
    shows one toast: its variant is destructive, its title "Login Failed"
    and its description the message [getErrorMessage] returns for the error
    thrown; the route is what it was.  A push of "/dashboard" is in the
    trace exactly when the call resolves, and nothing else is ever pushed;
    the loading flag ends as [false] in both cases. *)
Theorem handleEmailLogin_outcome
  (sdk : Sdk) (email password route0 : string) (loading0 : bool) :
  let op := signInWithEmailAndPassword email password in
  let t := trace (handleEmailLogin sdk email password) in
  (forall error, sdk op = Some error ->
     pushes t = []
     /\ toasts t = [login_failed (message_of error)]
     /\ toasts t = [{| variant := Destructive;
                       title := "Login Failed";
                       description := message_of error |}]
     /\ completion (@getErrorMessage Empty_set error)
        = Normal (message_of error)
     /\ final_route route0 t = route0)
  /\ (In "/dashboard" (pushes t) <-> sdk op = None)
  /\ (forall path, In path (pushes t) -> path = "/dashboard")
  /\ sdk_calls t = [op]
  /\ final_loading loading0 t = false
  /\ completion (handleEmailLogin sdk email password) = Normal tt.
Proof.
  intros op t. subst t.
  destruct (sdk op) as [error|] eqn:Esdk.
  - destruct (@getErrorMessage_run Empty_set error) as (log & Hrun & Hlog).
    rewrite (handleEmailLogin_rejected sdk email password error log Esdk Hrun).
    pose proof (@getErrorMessage_completion Empty_set error) as Hmsg.
    destruct Hlog as [-> | ->]; simpl.
    + split; [intros e He; injection He as <-; auto 6|].
      split; [split; [intros []|discriminate]|].
      split; [intros p []|]. auto.
    + split; [intros e He; injection He as <-; auto 6|].
      split; [split; [intros []|discriminate]|].
      split; [intros p []|]. auto.
  - rewrite (handleEmailLogin_resolved sdk email password Esdk). simpl.
    split; [discriminate|].
    split; [split; auto|].
    split; [intros p [<-|[]]; reflexivity|]. auto.
Qed.

Lemma handleEmailLogin_outcome_witness :
  let sdk := rejecting "auth/user-disabled" in
  let t := trace (handleEmailLogin sdk "ada@example.org" "hunter2") in
  pushes t = []
  /\ toasts t = [{| variant := Destructive;
                    title := "Login Failed";
                    description := "This account has been disabled" |}]
  /\ final_route "/login" t = "/login".
Proof.
  intros sdk t.
  destruct (handleEmailLogin_outcome sdk "ada@example.org" "hunter2" "/login"
              true) as [Hrejected _].
  destruct (Hrejected (mkAuthError "auth/user-disabled" "") eq_refl)
    as (Hpushes & _ & Htoast & _ & Hroute).
  split; [exact Hpushes|]. split; [exact Htoast | exact Hroute].
Defined.

End LoginFormFacts.

(* ===================================================================== *)
(** ** Theorems about the password form *)
(* ===================================================================== *)

Module PasswordFormFacts.
Import Runtime PasswordForm Samples.

(** One goal per path through [handleSubmit]. *)
Ltac run_handleSubmit sdk user formData :=
  unfold handleSubmit, await;
  let u := fresh "u" in
  let addr := fresh "addr" in
  destruct (user_email user) as [[u addr]|] eqn:Euser;
  [ destruct (String.eqb (newPassword formData) (confirmPassword formData))
      eqn:Esame;
    [ destruct (Nat.ltb (String.length (newPassword formData)) 6) eqn:Eshort;
      [ | destruct (sdk (reauthenticateWithCredential u
                           (credential addr (currentPassword formData))))
            as [e1|] eqn:Ereauth;
          [ | destruct (sdk (updatePassword u (newPassword formData)))
                as [e2|] eqn:Eupdate ] ]
    | ]
  | ];
  simpl.

Ltac in_trace :=
  repeat match goal with
         | H : In _ (_ :: _) |- _ => destruct H as [H|H]
         | H : In _ [] |- _ => destruct H
         | H : _ \/ _ |- _ => destruct H as [H|H]
         | H : False |- _ => destruct H
         | H : _ = _ |- _ => discriminate H
         end.

Lemma rejected_locally_checks (formData : FormData) :
  rejected_locally formData ->
  String.eqb (newPassword formData) (confirmPassword formData) = true ->
  Nat.ltb (String.length (newPassword formData)) 6 = true.
Proof.
  intros [Hdiff|Hshort] Hsame.
  - apply String.eqb_eq in Hsame. contradiction.
  - apply Nat.ltb_lt, Hshort.
Qed.

(** C8, as worded, promises an error toast on every submission that fails
    the local checks.  Without a signed-in user the handler returns before
    the checks: here the two passwords differ and no toast is shown. *)
Lemma handleSubmit_silent_without_user :
  let formData := {| currentPassword := "old-secret";
                     newPassword := "abc";
                     confirmPassword := "xyz" |} in
  rejected_locally formData
  /\ toasts (trace (handleSubmit accepting None formData)) = [].
Proof.
  simpl. split; [left; discriminate | reflexivity].
Qed.

(** C8 (amended): on a submission whose new password differs from its
    confirmation or is shorter than 6, [handleSubmit] returns without any
    SDK operation and without setting the form data, so the three fields
    keep their values; when the user has an e-mail address exactly one
    toast is shown, a destructive one ("Password Mismatch", or "Invalid
    Password" when the two agree); when there is no such user it returns
    without a toast. *)
Theorem handleSubmit_validates_first
  (sdk : Sdk) (user : option User) (formData : FormData) :
  rejected_locally formData ->
  let t := trace (handleSubmit sdk user formData) in
  completion (handleSubmit sdk user formData) = Normal tt
  /\ sdk_calls t = []
  /\ (forall v, ~ In (SetFormData v) t)
  /\ final_formData formData t = formData
  /\ toasts t =
       match user_email user with
       | None => []
       | Some _ =>
           [if String.eqb (newPassword formData) (confirmPassword formData)
            then invalid_password else password_mismatch]
       end
  /\ variant invalid_password = Destructive
  /\ variant password_mismatch = Destructive.
Proof.
  intros Hrejected t. subst t.
  run_handleSubmit sdk user formData;
    try (rewrite (rejected_locally_checks formData Hrejected Esame) in Eshort;
         discriminate Eshort);
    repeat match goal with |- _ /\ _ => split end;
    auto; intros v Hin; in_trace.
Qed.

Lemma handleSubmit_validates_first_witness :
  let formData := {| currentPassword := "old-secret";
                     newPassword := "abc";
                     confirmPassword := "abc" |} in
  let t := trace (handleSubmit accepting (Some ada) formData) in
  sdk_calls t = []
  /\ final_formData formData t = formData
  /\ toasts t = [invalid_password].
Proof.
  intros formData t.
  assert (Hrejected : rejected_locally formData) by (right; simpl; lia).
  destruct (handleSubmit_validates_first accepting (Some ada) formData
              Hrejected) as (_ & Hcalls & _ & Hdata & Htoasts & _).
  split; [exact Hcalls|]. split; [exact Hdata | exact Htoasts].
Defined.

(** The paths of a submission that passes the local checks, by what the
    provider answers. *)
Lemma handleSubmit_validated
  (sdk : Sdk) (user : option User) (formData : FormData)
  (u : User) (addr : string) :
  user_email user = Some (u, addr) ->
  newPassword formData = confirmPassword formData ->
  6 <= String.length (newPassword formData) ->
  let reauth := reauthenticateWithCredential u
                  (credential addr (currentPassword formData)) in
  let update := updatePassword u (newPassword formData) in
  trace (handleSubmit sdk user formData) =
    [PreventDefault; SetLoading true]
    ++ match sdk reauth, sdk update with
       | Some e, _ =>
           [SdkCall reauth (Some e);
            ToastShown (update_failed (error_message e))]
       | None, Some e =>
           [SdkCall reauth None; SdkCall update (Some e);
            ToastShown (update_failed (error_message e))]
       | None, None =>
           [SdkCall reauth None; SdkCall update None;
            SetFormData cleared; ToastShown password_updated]
       end
    ++ [SetLoading false].
Proof.
  intros Huser Hsame Hlong reauth update. subst reauth update.
  apply String.eqb_eq in Hsame. apply Nat.ltb_ge in Hlong.
  unfold handleSubmit, await. rewrite Huser, Hsame, Hlong. simpl.
  destruct (sdk (reauthenticateWithCredential u _)) as [e1|]; simpl;
    [reflexivity|].
  destruct (sdk (updatePassword u _)) as [e2|]; reflexivity.
Qed.

(** C9: [handleSubmit] sets the form data exactly when both awaited SDK
    calls were made and resolved, and only to the record whose three fields
    are the empty string.  In that case the calls were the reauthentication
    and then the update, in this order, the three fields end empty and the
    toast is "Password Updated".  When a call rejects, the fields end with
    the values submitted and the only toast is the destructive "Update
    Failed". *)
Theorem handleSubmit_clears_exactly_on_success
  (sdk : Sdk) (user : option User) (formData : FormData) :
  let t := trace (handleSubmit sdk user formData) in
  let empty := {| currentPassword := EmptyString;
                  newPassword := EmptyString;
                  confirmPassword := EmptyString |} in
  (In (SetFormData empty) t <-> both_calls_succeeded t)
  /\ (forall v, In (SetFormData v) t -> v = empty)
  /\ (both_calls_succeeded t ->
      final_formData formData t = empty
      /\ currentPassword (final_formData formData t) = EmptyString
      /\ newPassword (final_formData formData t) = EmptyString
      /\ confirmPassword (final_formData formData t) = EmptyString
      /\ toasts t = [password_updated]
      /\ exists u addr,
           user_email user = Some (u, addr)
           /\ sdk_calls t
              = [reauthenticateWithCredential u
                   (credential addr (currentPassword formData));
                 updatePassword u (newPassword formData)])
  /\ (forall op error, In (SdkCall op (Some error)) t ->
      final_formData formData t = formData
      /\ toasts t = [update_failed (error_message error)]
      /\ toasts t = [{| variant := Destructive;
                        title := "Update Failed";
                        description := error_message error |}]).
Proof.
  intros t empty. subst t empty. unfold both_calls_succeeded.
  run_handleSubmit sdk user formData.
  - (* too short *)
    split; [split; [intros H; in_trace | intros [[? [? H]] _]; in_trace]|].
    split; [intros v H; in_trace|].
    split; [intros [[? [? H]] _]; in_trace | intros op error H; in_trace].
  - (* reauthentication rejects *)
    split; [split; [intros H; in_trace | intros [_ [? [? H]]]; in_trace]|].
    split; [intros v H; in_trace|].
    split; [intros [_ [? [? H]]]; in_trace|].
    intros op error H; in_trace. injection H as <- <-. auto.
  - (* the update rejects *)
    split; [split; [intros H; in_trace | intros [_ [? [? H]]]; in_trace]|].
    split; [intros v H; in_trace|].
    split; [intros [_ [? [? H]]]; in_trace|].
    intros op error H; in_trace. injection H as <- <-. auto.
  - (* both resolve *)
    split.
    { split; [intros _ | auto 10].
      split; [exists u, (credential addr (currentPassword formData))
             | exists u, (newPassword formData)]; auto 10. }
    split; [intros v H; in_trace; injection H as <-; reflexivity|].
    split; [|intros op error H; in_trace].
    intros _. do 5 (split; [reflexivity|]).
    exists u, addr. split; reflexivity.
  - (* the passwords differ *)
    split; [split; [intros H; in_trace | intros [[? [? H]] _]; in_trace]|].
    split; [intros v H; in_trace|].
    split; [intros [[? [? H]] _]; in_trace | intros op error H; in_trace].
  - (* no user with an e-mail address *)
    split; [split; [intros H; in_trace | intros [[? [? H]] _]; in_trace]|].
    split; [intros v H; in_trace|].
    split; [intros [[? [? H]] _]; in_trace | intros op error H; in_trace].
Qed.

Lemma handleSubmit_clears_exactly_on_success_witness :
  let formData := {| currentPassword := "old-secret";
                     newPassword := "new-secret";
                     confirmPassword := "new-secret" |} in
  final_formData formData (trace (handleSubmit accepting (Some ada) formData))
    = {| currentPassword := EmptyString;
         newPassword := EmptyString;
         confirmPassword := EmptyString |}
  /\ final_formData formData
       (trace (handleSubmit wrong_password (Some ada) formData))
     = formData
  /\ toasts (trace (handleSubmit wrong_password (Some ada) formData))
     = [{| variant := Destructive;
           title := "Update Failed";
           description := "Current password is incorrect." |}].
Proof.
  intros formData. split.
  - destruct (handleSubmit_clears_exactly_on_success
                accepting (Some ada) formData) as (Hiff & _ & Hok & _).
    apply Hok, Hiff. simpl. tauto.
  - destruct (handleSubmit_clears_exactly_on_success
                wrong_password (Some ada) formData) as (_ & _ & _ & Hfail).
    destruct (Hfail (reauthenticateWithCredential ada
                       (credential "ada@example.org" "old-secret"))
                    (mkAuthError "auth/wrong-password" ""))
      as (Hdata & _ & Htoasts).
    + simpl. tauto.
    + split; [exact Hdata | exact Htoasts].
Defined.

End PasswordFormFacts.

(* ===================================================================== *)
(** ** Theorems about the profile form *)
(* ===================================================================== *)

Module ProfileFormFacts.
Import Runtime JsString JsStringFacts ProfileForm Samples.

(** What a submission by a signed-in user does, by the provider's answer. *)
Lemma handleSubmit_signed_in (sdk : Sdk) (u : User) (formData : FormData) :
  let op := updateProfile u (fullName formData) in
  handleSubmit sdk (Some u) formData =
    (Normal tt,
     [PreventDefault; SetLoading true; SdkCall op (sdk op);
      ToastShown (match sdk op with
                  | None => profile_updated
                  | Some _ => update_failed
                  end);
      SetLoading false]).
Proof.
  intros op. unfold handleSubmit, await. fold op.
  destruct (sdk op); reflexivity.
Qed.

Lemma handleSubmit_signed_out (sdk : Sdk) (formData : FormData) :
  handleSubmit sdk None formData = (Normal tt, [PreventDefault]).
Proof. reflexivity. Qed.

Lemma sdk_calls_signed_in (sdk : Sdk) (u : User) (formData : FormData) :
  sdk_calls (trace (handleSubmit sdk (Some u) formData))
  = [updateProfile u (fullName formData)].
Proof. rewrite handleSubmit_signed_in. reflexivity. Qed.

(** A display name of two words fills the two fields with them. *)
Lemma initialFormData_two_words (u : User) (a b : string) :
  is_word a = true -> is_word b = true ->
  displayName u = Some (a +:+ " " +:+ b) ->
  initialFormData (Some u) = {| firstName := a; lastName := b |}.
Proof.
  intros Ha Hb Hname. unfold initialFormData, name_part.
  rewrite Hname, (split_two_words a b Ha Hb). unfold index. simpl nth_error.
  rewrite (or_else_word a (word_nonempty a Ha)).
  rewrite (or_else_word b (word_nonempty b Hb)). reflexivity.
Qed.

(** C10: the display name a signed-in user's submission sends to the
    provider is [trim (firstName ++ " " ++ lastName)], which neither starts
    nor ends with white space; and for a user whose display name is two
    words separated by one space, the form initialised from that name and
    submitted as it is sends the same display name back. *)
Theorem profile_name_round_trip (sdk : Sdk) (u : User) :
  (forall formData,
     sdk_calls (trace (handleSubmit sdk (Some u) formData))
     = [updateProfile u
          (trim (firstName formData +:+ " " +:+ lastName formData))]
     /\ has_leading_white_space
          (trim (firstName formData +:+ " " +:+ lastName formData)) = false
     /\ has_trailing_white_space
          (trim (firstName formData +:+ " " +:+ lastName formData)) = false)
  /\ (forall a b,
        is_word a = true -> is_word b = true ->
        displayName u = Some (a +:+ " " +:+ b) ->
        sdk_calls
          (trace (handleSubmit sdk (Some u) (initialFormData (Some u))))
        = [updateProfile u (a +:+ " " +:+ b)]).
Proof.
  split.
  - intros formData. split; [apply sdk_calls_signed_in | apply trim_clean].
  - intros a b Ha Hb Hname.
    rewrite sdk_calls_signed_in, (initialFormData_two_words u a b Ha Hb Hname).
    unfold fullName. simpl firstName. simpl lastName.
    rewrite (trim_two_words a b Ha Hb). reflexivity.
Qed.

Lemma profile_name_round_trip_witness :
  sdk_calls
    (trace (handleSubmit accepting (Some ada) (initialFormData (Some ada))))
  = [updateProfile ada "Ada Lovelace"].
Proof.
  apply (proj2 (profile_name_round_trip accepting ada) "Ada" "Lovelace");
    reflexivity.
Defined.

End ProfileFormFacts.

(* ===================================================================== *)
(** ** The settings forms and the SDK *)
(* ===================================================================== *)

Module SettingsFacts.
Import Runtime Samples.

(** C6, as worded, allows one SDK operation per submission.  A password
    change the provider accepts awaits two: the reauthentication and the
    update. *)
Lemma password_submission_two_sdk_calls :
  let formData := {| PasswordForm.currentPassword := "old-secret";
                     PasswordForm.newPassword := "new-secret";
                     PasswordForm.confirmPassword := "new-secret" |} in
  let n := length (sdk_calls (trace (PasswordForm.handleSubmit
                                       accepting (Some ada) formData))) in
  0 < n /\ n <> 1.
Proof. simpl. lia. Qed.

(** C6 (amended): a submission of the profile form that reaches the SDK
    invokes one operation, [updateProfile]; a submission of the password
    form that reaches the SDK invokes [reauthenticateWithCredential] and,
    exactly when that resolves, [updatePassword] after it: one operation or
    two. *)
Theorem settings_forms_sdk_calls (sdk : Sdk) (user : option User) :
  (forall formData,
     let calls := sdk_calls (trace (ProfileForm.handleSubmit
                                      sdk user formData)) in
     calls <> [] ->
     exists u, user = Some u
               /\ calls = [updateProfile u (ProfileForm.fullName formData)])
  /\ (forall formData,
        let calls := sdk_calls (trace (PasswordForm.handleSubmit
                                         sdk user formData)) in
        calls <> [] ->
        exists u addr,
          PasswordForm.user_email user = Some (u, addr)
          /\ let reauth :=
               reauthenticateWithCredential u
                 (credential addr (PasswordForm.currentPassword formData)) in
             calls = match sdk reauth with
                     | Some _ => [reauth]
                     | None => [reauth;
                                updatePassword u
                                  (PasswordForm.newPassword formData)]
                     end).
Proof.
  split.
  - intros formData calls Hcalls. subst calls. destruct user as [u|].
    + exists u. split; [reflexivity | apply ProfileFormFacts.sdk_calls_signed_in].
    + exfalso. apply Hcalls. reflexivity.
  - intros formData calls Hcalls. subst calls. revert Hcalls.
    PasswordFormFacts.run_handleSubmit sdk user formData; intros Hcalls;
      try (exfalso; apply Hcalls; reflexivity);
      exists u, addr; (split; [reflexivity|]);
      try rewrite Ereauth; reflexivity.
Qed.

Lemma settings_forms_sdk_calls_witness :
  let profile := {| ProfileForm.firstName := "Ada";
                    ProfileForm.lastName := "Byron" |} in
  let passwords := {| PasswordForm.currentPassword := "old-secret";
                      PasswordForm.newPassword := "new-secret";
                      PasswordForm.confirmPassword := "new-secret" |} in
  sdk_calls (trace (ProfileForm.handleSubmit accepting (Some ada) profile))
  = [updateProfile ada "Ada Byron"]
  /\ sdk_calls (trace (PasswordForm.handleSubmit wrong_password (Some ada)
                         passwords))
     = [reauthenticateWithCredential ada
          (credential "ada@example.org" "old-secret")].
Proof.
  intros profile passwords. split.
  - destruct (proj1 (settings_forms_sdk_calls accepting (Some ada)) profile)
      as (v & Hv & Hcalls).
    + discriminate.
    + injection Hv as <-. exact Hcalls.
  - destruct (proj2 (settings_forms_sdk_calls wrong_password (Some ada))
                passwords) as (v & addr & Hv & Hcalls).
    + discriminate.
    + simpl in Hv. injection Hv as <- <-. exact Hcalls.
Defined.

End SettingsFacts.

(* ===================================================================== *)
(** ** More about the route guard *)
(* ===================================================================== *)

Module MiddlewareMore.
Import Middleware MiddlewareFacts Samples.

(** X1: the guard never redirects twice in a row.  When it answers a
    request with a redirect, the request for the redirect's path that
    carries the same "auth-token" cookie (or, as before, none) is passed
    through. *)
Theorem middleware_no_redirect_loop
  (request next : NextRequest) (target : URL) :
  middleware request = Redirect target ->
  pathname (nextUrl next) = pathname target ->
  cookies next !! "auth-token" = cookies request !! "auth-token" ->
  middleware next = Next.
Proof.
  intros Hredirect Hpath Hcookie.
  assert (Htoken : has_auth_token next = has_auth_token request).
  { unfold has_auth_token, cookies_get. rewrite Hcookie. reflexivity. }
  rewrite middleware_cases in Hredirect. rewrite middleware_cases, Htoken, Hpath.
  destruct (has_auth_token request),
           (String.eqb (pathname (nextUrl request)) "/login");
    try discriminate Hredirect;
    injection Hredirect as <-; reflexivity.
Qed.

Lemma middleware_no_redirect_loop_witness :
  middleware anonymous_login_request = Next.
Proof.
  apply (middleware_no_redirect_loop anonymous_request anonymous_login_request
           (mkURL "https://app.example" "/login" "" ""));
    reflexivity.
Defined.

(** X2: a redirect of the guard stays on the origin of the request URL,
    carries neither query nor fragment, and goes to "/login" when the
    cookie is absent and to "/dashboard" when it is present: the page first
    asked for is not kept anywhere in it. *)
Theorem middleware_redirect_target (request : NextRequest) (target : URL) :
  middleware request = Redirect target ->
  origin target = origin (url request)
  /\ search target = ""
  /\ hash target = ""
  /\ pathname target
     = (if has_auth_token request then "/dashboard" else "/login").
Proof.
  rewrite middleware_cases.
  destruct (has_auth_token request),
           (String.eqb (pathname (nextUrl request)) "/login");
    intros H; try discriminate H; injection H as <-; repeat split.
Qed.

Lemma middleware_redirect_target_witness :
  origin (mkURL "https://app.example" "/login" "" "") = "https://app.example"
  /\ search (mkURL "https://app.example" "/login" "" "") = ""
  /\ hash (mkURL "https://app.example" "/login" "" "") = ""
  /\ pathname (mkURL "https://app.example" "/login" "" "") = "/login".
Proof.
  apply (middleware_redirect_target anonymous_request
           (mkURL "https://app.example" "/login" "" "")).
  reflexivity.
Defined.

End MiddlewareMore.

(* ===================================================================== *)
(** ** Facts about traces *)
(* ===================================================================== *)

Module TraceFacts.
Import Runtime TraceChecks.

(** What [calls_after_setLoading_true] checks: before every SDK call of the
    trace, the last [setLoading] call was [setLoading(true)]. *)
Lemma calls_after_setLoading_true_sound {F} (t : list (Event F)) :
  forall (requested : option bool),
    calls_after_setLoading_true requested t = true ->
    forall before op outcome after,
      t = before ++ SdkCall op outcome :: after ->
      last_setLoading_from requested before = Some true.
Proof.
  induction t as [|ev t IH];
    intros requested Hcheck before op outcome after Hsplit.
  - destruct before; discriminate Hsplit.
  - destruct before as [|ev' before].
    + simpl in Hsplit. injection Hsplit as -> _.
      simpl in Hcheck. destruct requested as [[|]|];
        [reflexivity | discriminate Hcheck | discriminate Hcheck].
    + simpl in Hsplit. injection Hsplit as <- Hsplit.
      unfold last_setLoading_from. cbn [fold_left].
      destruct ev; simpl in Hcheck;
        try (eapply IH; [exact Hcheck | exact Hsplit]).
      destruct requested as [[|]|]; try discriminate Hcheck.
      eapply IH; [exact Hcheck | exact Hsplit].
Qed.

End TraceFacts.

(* ===================================================================== *)
(** ** More about the login form *)
(* ===================================================================== *)

Module LoginFormMore.
Import Runtime TraceChecks LoginForm LoginFormFacts Samples.

(** The codes the provider uses for a failed credential check. *)
Lemma credential_codes_message (error : AuthError) :
  In (code error) ["auth/user-not-found"; "auth/wrong-password";
                   "auth/invalid-credential"] ->
  @getErrorMessage Empty_set error
  = (Normal "Invalid email or password combination", []).
Proof.
  destruct error as [c m]. simpl. intros H.
  repeat (destruct H as [<-|H]; [reflexivity|]). contradiction.
Qed.

Lemma getErrorMessage_console {F} (error : AuthError) :
  trace (@getErrorMessage F error)
  = if existsb (String.eqb (code error)) handled_codes
    then []
    else [ConsoleError "Firebase Auth Error:" (code error)].
Proof.
  unfold getErrorMessage, handled_codes. simpl existsb.
  case_code; reflexivity.
Qed.

Lemma handled_codes_existsb (c : string) :
  existsb (String.eqb c) handled_codes = true <-> In c handled_codes.
Proof.
  rewrite existsb_exists. split.
  - intros [x [Hin Heq]]. apply String.eqb_eq in Heq. subst x. exact Hin.
  - intros Hin. exists c. split; [exact Hin | apply String.eqb_refl].
Qed.

(** X3: the login handler writes to the console only when the sign-in is
    rejected with a code [getErrorMessage] has no case for, and then it
    writes one line, the label "Firebase Auth Error:" with that code; a
    rejection with a handled code and a successful sign-in leave the console
    untouched. *)
Theorem handleEmailLogin_console (sdk : Sdk) (email password : string) :
  console (trace (handleEmailLogin sdk email password))
  = match sdk (signInWithEmailAndPassword email password) with
    | None => []
    | Some error =>
        if existsb (String.eqb (code error)) handled_codes
        then []
        else [("Firebase Auth Error:", code error)]
    end.
Proof.
  destruct (sdk (signInWithEmailAndPassword email password)) as [error|] eqn:Esdk.
  - destruct (@getErrorMessage_run Empty_set error) as (log & Hrun & _).
    rewrite (handleEmailLogin_rejected sdk email password error log Esdk Hrun).
    pose proof (@getErrorMessage_console Empty_set error) as Hlog.
    unfold trace in Hlog. rewrite Hrun in Hlog. cbn [snd] in Hlog.
    rewrite Hlog. destruct (existsb _ _); reflexivity.
  - rewrite (handleEmailLogin_resolved sdk email password Esdk). reflexivity.
Qed.

(** X4: the three codes of a failed credential check look alike.  Two
    sign-ins rejected with any of "auth/user-not-found",
    "auth/wrong-password" and "auth/invalid-credential" show the same single
    toast, the destructive "Login Failed" with the description "Invalid
    email or password combination", push no route and write nothing to the
    console.  (The other handled codes, "auth/user-disabled" among them,
    have texts of their own.) *)
Theorem credential_rejections_look_alike
  (sdk1 sdk2 : Sdk) (email password : string) (e1 e2 : AuthError) :
  let op := signInWithEmailAndPassword email password in
  let credential_codes := ["auth/user-not-found"; "auth/wrong-password";
                           "auth/invalid-credential"] in
  sdk1 op = Some e1 -> In (code e1) credential_codes ->
  sdk2 op = Some e2 -> In (code e2) credential_codes ->
  let t1 := trace (handleEmailLogin sdk1 email password) in
  let t2 := trace (handleEmailLogin sdk2 email password) in
  toasts t1 = toasts t2
  /\ toasts t1
     = [{| variant := Destructive;
           title := "Login Failed";
           description := "Invalid email or password combination" |}]
  /\ pushes t1 = [] /\ pushes t2 = []
  /\ console t1 = [] /\ console t2 = [].
Proof.
  intros op codes H1 Hc1 H2 Hc2 t1 t2. subst t1 t2 op codes.
  pose proof (credential_codes_message e1 Hc1) as Hm1.
  pose proof (credential_codes_message e2 Hc2) as Hm2.
  assert (Hmsg : forall e,
             @getErrorMessage Empty_set e
             = (Normal "Invalid email or password combination", []) ->
             message_of e = "Invalid email or password combination").
  { intros e He. unfold message_of. rewrite He. reflexivity. }
  rewrite (handleEmailLogin_rejected sdk1 email password e1 [] H1)
    by (rewrite (Hmsg e1 Hm1); exact Hm1).
  rewrite (handleEmailLogin_rejected sdk2 email password e2 [] H2)
    by (rewrite (Hmsg e2 Hm2); exact Hm2).
  rewrite (Hmsg e1 Hm1), (Hmsg e2 Hm2). simpl. repeat split.
Qed.

Lemma credential_rejections_look_alike_witness :
  toasts (trace (handleEmailLogin (rejecting "auth/user-not-found")
                   "ada@example.org" "hunter2"))
  = toasts (trace (handleEmailLogin (rejecting "auth/wrong-password")
                     "ada@example.org" "hunter2"))
  /\ toasts (trace (handleEmailLogin (rejecting "auth/user-not-found")
                      "ada@example.org" "hunter2"))
     = [{| variant := Destructive;
           title := "Login Failed";
           description := "Invalid email or password combination" |}].
Proof.
  destruct (credential_rejections_look_alike
              (rejecting "auth/user-not-found")
              (rejecting "auth/wrong-password")
              "ada@example.org" "hunter2"
              (mkAuthError "auth/user-not-found" "")
              (mkAuthError "auth/wrong-password" ""))
    as (Hsame & Htoast & _); simpl; auto.
Defined.

Lemma message_of_fixed (error : AuthError) :
  In (message_of error)
     ["Please enter a valid email address";
      "This account has been disabled";
      "Invalid email or password combination";
      "Too many failed attempts. Please try again later";
      "Network error. Please check your connection";
      fallback_message].
Proof.
  unfold message_of, getErrorMessage. case_code; simpl; auto 10.
Qed.

(** X25: a sign-in attempt shows at most one toast, always the destructive
    "Login Failed", and its text is one of six fixed messages: the
    provider's own message, the address and the password are never
    shown. *)
Theorem handleEmailLogin_toasts_fixed (sdk : Sdk) (email password : string) :
  let shown := toasts (trace (handleEmailLogin sdk email password)) in
  length shown <= 1
  /\ forall x, In x shown ->
       variant x = Destructive
       /\ title x = "Login Failed"
       /\ In (description x)
            ["Please enter a valid email address";
             "This account has been disabled";
             "Invalid email or password combination";
             "Too many failed attempts. Please try again later";
             "Network error. Please check your connection";
             fallback_message].
Proof.
  destruct (sdk (signInWithEmailAndPassword email password)) as [error|] eqn:Esdk.
  - destruct (@getErrorMessage_run Empty_set error) as (log & Hrun & Hlog).
    rewrite (handleEmailLogin_rejected sdk email password error log Esdk Hrun).
    destruct Hlog as [-> | ->]; cbn; (split; [lia|]);
      intros x [<-|[]]; (split; [reflexivity|]); (split; [reflexivity|]);
      apply message_of_fixed.
  - rewrite (handleEmailLogin_resolved sdk email password Esdk). cbn.
    split; [lia | intros x []].
Qed.

Lemma handleEmailLogin_toasts_fixed_witness :
  variant (login_failed "This account has been disabled") = Destructive
  /\ title (login_failed "This account has been disabled") = "Login Failed"
  /\ In (description (login_failed "This account has been disabled"))
       ["Please enter a valid email address";
        "This account has been disabled";
        "Invalid email or password combination";
        "Too many failed attempts. Please try again later";
        "Network error. Please check your connection";
        fallback_message].
Proof.
  apply (proj2 (handleEmailLogin_toasts_fixed
                  (rejecting "auth/user-disabled") "ada@example.org" "hunter2")).
  simpl. tauto.
Defined.

End LoginFormMore.

(* ===================================================================== *)
(** ** More about the password form *)
(* ===================================================================== *)

Module PasswordFormMore.
Import Runtime TraceChecks PasswordForm PasswordFormFacts Samples.

(** X5: [updatePassword] is called only with a new password that equals
    its confirmation and has at least 6 code units, for the signed-in user,
    and only after the reauthentication of that user resolved. *)
Theorem updatePassword_only_after_checks
  (sdk : Sdk) (user : option User) (formData : FormData)
  (u : User) (pw : string) (outcome : option AuthError) :
  In (SdkCall (updatePassword u pw) outcome)
     (trace (handleSubmit sdk user formData)) ->
  pw = newPassword formData
  /\ pw = confirmPassword formData
  /\ 6 <= String.length pw
  /\ exists addr,
       user_email user = Some (u, addr)
       /\ sdk (reauthenticateWithCredential u
                 (credential addr (currentPassword formData))) = None.
Proof.
  run_handleSubmit sdk user formData; intros H; in_trace.
  - injection H as <- <- _.
    apply String.eqb_eq in Esame. apply Nat.ltb_ge in Eshort.
    repeat split; eauto.
  - injection H as <- <- _.
    apply String.eqb_eq in Esame. apply Nat.ltb_ge in Eshort.
    repeat split; eauto.
Qed.

Lemma updatePassword_only_after_checks_witness :
  "new-secret" = "new-secret"
  /\ "new-secret" = "new-secret"
  /\ 6 <= String.length "new-secret"
  /\ exists addr,
       user_email (Some ada) = Some (ada, addr)
       /\ accepting (reauthenticateWithCredential ada
                       (credential addr "old-secret")) = None.
Proof.
  apply (updatePassword_only_after_checks accepting (Some ada)
           {| currentPassword := "old-secret";
              newPassword := "new-secret";
              confirmPassword := "new-secret" |}
           ada "new-secret" None).
  simpl. tauto.
Defined.

(** X6: the reauthentication is attempted only for a submission that
    passed both local checks, and always with the signed-in user's own
    e-mail address and the current password as typed. *)
Theorem reauthentication_uses_own_address
  (sdk : Sdk) (user : option User) (formData : FormData)
  (u : User) (cred : AuthCredential) (outcome : option AuthError) :
  In (SdkCall (reauthenticateWithCredential u cred) outcome)
     (trace (handleSubmit sdk user formData)) ->
  user_email user = Some (u, cred_email cred)
  /\ cred_password cred = currentPassword formData
  /\ newPassword formData = confirmPassword formData
  /\ 6 <= String.length (newPassword formData)
  /\ outcome = sdk (reauthenticateWithCredential u cred).
Proof.
  run_handleSubmit sdk user formData; intros H; in_trace;
    injection H as <- <- <-;
    apply String.eqb_eq in Esame; apply Nat.ltb_ge in Eshort;
    simpl; auto.
Qed.

Lemma reauthentication_uses_own_address_witness :
  user_email (Some ada) = Some (ada, "ada@example.org")
  /\ "old-secret" = "old-secret"
  /\ "new-secret" = "new-secret"
  /\ 6 <= String.length "new-secret"
  /\ Some (mkAuthError "auth/wrong-password" "")
     = wrong_password (reauthenticateWithCredential ada
                         (credential "ada@example.org" "old-secret")).
Proof.
  apply (reauthentication_uses_own_address wrong_password (Some ada)
           {| currentPassword := "old-secret";
              newPassword := "new-secret";
              confirmPassword := "new-secret" |}
           ada (credential "ada@example.org" "old-secret")
           (Some (mkAuthError "auth/wrong-password" ""))).
  simpl. tauto.
Defined.

(** X7: after a successful change the form cannot be sent again as it is.
    Submitting the form data a successful submission leaves behind makes no
    SDK call, whatever the provider would answer, and shows the "Invalid
    Password" toast. *)
Theorem resubmission_after_success_is_local
  (sdk sdk' : Sdk) (user : option User) (formData : FormData) :
  both_calls_succeeded (trace (handleSubmit sdk user formData)) ->
  let left_behind :=
    final_formData formData (trace (handleSubmit sdk user formData)) in
  left_behind = PasswordFormInputs.initialFormData
  /\ sdk_calls (trace (handleSubmit sdk' user left_behind)) = []
  /\ toasts (trace (handleSubmit sdk' user left_behind)) = [invalid_password].
Proof.
  unfold both_calls_succeeded.
  run_handleSubmit sdk user formData;
    try (intros [[? [? H]] _]; in_trace; fail);
    try (intros [_ [? [? H]]]; in_trace; fail).
  intros _. split; [reflexivity|]. split; reflexivity.
Qed.

Lemma resubmission_after_success_is_local_witness :
  let formData := {| currentPassword := "old-secret";
                     newPassword := "new-secret";
                     confirmPassword := "new-secret" |} in
  let left_behind :=
    final_formData formData
      (trace (handleSubmit accepting (Some ada) formData)) in
  left_behind = PasswordFormInputs.initialFormData
  /\ sdk_calls (trace (handleSubmit accepting (Some ada) left_behind)) = []
  /\ toasts (trace (handleSubmit accepting (Some ada) left_behind))
     = [invalid_password].
Proof.
  intros formData.
  apply (resubmission_after_success_is_local accepting accepting (Some ada)
           formData).
  split.
  - exists ada, (credential "ada@example.org" "old-secret"). simpl. tauto.
  - exists ada, "new-secret". simpl. tauto.
Defined.

(** X8: a submission of the password form shows at most one toast, and it
    is one of five fixed ones: what was typed and the provider's own message
    are never shown. *)
Theorem handleSubmit_toasts_fixed
  (sdk : Sdk) (user : option User) (formData : FormData) :
  let shown := toasts (trace (handleSubmit sdk user formData)) in
  length shown <= 1
  /\ forall x, In x shown ->
       In x [password_mismatch; invalid_password; password_updated;
             update_failed "Current password is incorrect.";
             update_failed "Failed to update password. Please try again."].
Proof.
  run_handleSubmit sdk user formData;
    (split; [auto|]); intros x H; in_trace; subst x; auto 10.
  - unfold error_message. destruct (String.eqb (code e1) _);
      [do 3 right | do 4 right]; left; reflexivity.
  - unfold error_message. destruct (String.eqb (code e2) _);
      [do 3 right | do 4 right]; left; reflexivity.
Qed.

Lemma handleSubmit_toasts_fixed_witness :
  In password_mismatch
     [password_mismatch; invalid_password; password_updated;
      update_failed "Current password is incorrect.";
      update_failed "Failed to update password. Please try again."].
Proof.
  apply (proj2 (handleSubmit_toasts_fixed accepting (Some ada)
                  {| currentPassword := "old-secret";
                     newPassword := "new-secret";
                     confirmPassword := "new-sekret" |})).
  simpl. tauto.
Defined.

End PasswordFormMore.

(* ===================================================================== *)
(** ** More about [split] and [trim] *)
(* ===================================================================== *)

Module JsStringMore.
Import JsString JsStringFacts TraceChecks.


Lemma trimStart_all_white_space (s : string) :
  all_white_space s = true -> trimStart s = EmptyString.
Proof.
  induction s as [|c rest IH]; [reflexivity|]. simpl. intros H.
  apply andb_true_iff in H as [Hc Hrest]. rewrite Hc. exact (IH Hrest).
Qed.

Lemma trimEnd_all_white_space (s : string) :
  all_white_space s = true -> trimEnd s = EmptyString.
Proof.
  induction s as [|c rest IH]; [reflexivity|]. simpl. intros H.
  apply andb_true_iff in H as [Hc Hrest]. rewrite (IH Hrest), Hc. reflexivity.
Qed.

(** White space at the end does not survive [trimEnd]. *)
Lemma trimEnd_append_white_space (s ws : string) :
  all_white_space ws = true -> trimEnd (s +:+ ws) = trimEnd s.
Proof.
  intros Hws. induction s as [|c rest IH].
  - simpl. apply trimEnd_all_white_space, Hws.
  - simpl. rewrite IH. reflexivity.
Qed.

Lemma all_white_space_append (a b : string) :
  all_white_space a = true -> all_white_space b = true ->
  all_white_space (a +:+ b) = true.
Proof.
  intros Ha Hb. induction a as [|c a IH]; [exact Hb|].
  simpl in *. apply andb_true_iff in Ha as [Hc Ha].
  rewrite Hc, (IH Ha). reflexivity.
Qed.

Lemma trim_all_white_space (s : string) :
  all_white_space s = true -> trim s = EmptyString.
Proof. intros H. unfold trim. rewrite (trimStart_all_white_space s H). reflexivity. Qed.

Lemma word_leading (w rest : string) :
  is_word w = true -> has_leading_white_space (w +:+ rest) = false.
Proof.
  intros Hw. pose proof (word_nonempty w Hw) as Hne.
  pose proof (no_white_space_leading w (word_no_white_space w Hw)) as H.
  destruct w; [contradiction | exact H].
Qed.

Lemma word_trimEnd (w : string) : is_word w = true -> trimEnd w = w.
Proof.
  intros Hw. apply trimEnd_id, no_white_space_trailing, word_no_white_space, Hw.
Qed.

(** A word followed by white space is trimmed to the word. *)
Lemma trim_word_then_white_space (w ws : string) :
  is_word w = true -> all_white_space ws = true -> trim (w +:+ ws) = w.
Proof.
  intros Hw Hws. unfold trim.
  rewrite (trimStart_id _ (word_leading w ws Hw)).
  rewrite (trimEnd_append_white_space w ws Hws). apply word_trimEnd, Hw.
Qed.


End JsStringMore.

(* ===================================================================== *)
(** ** More about the profile form *)
(* ===================================================================== *)

Module ProfileFormMore.
Import Runtime JsString JsStringFacts JsStringMore TraceChecks.
Import ProfileForm ProfileFormFacts Samples.

(** X9: a submission of the profile form by a signed-in user shows one
    toast, "Profile Updated" when the provider accepts the new name and the
    fixed "Update Failed" toast when it rejects it, whatever the error; the
    handler never sets the form data, so the two fields keep their values;
    without a user nothing is shown and nothing is called. *)
Theorem profile_submit_outcome
  (sdk : Sdk) (user : option User) (formData : FormData) :
  let t := trace (handleSubmit sdk user formData) in
  toasts t
  = match user with
    | None => []
    | Some u =>
        match sdk (updateProfile u (fullName formData)) with
        | None => [profile_updated]
        | Some _ => [update_failed]
        end
    end
  /\ (user = None -> sdk_calls t = [])
  /\ formData_writes t = []
  /\ final_formData formData t = formData.
Proof.
  destruct user as [u|].
  - rewrite handleSubmit_signed_in.
    destruct (sdk (updateProfile u (fullName formData))); simpl;
      repeat split; discriminate.
  - rewrite handleSubmit_signed_out. simpl. repeat split.
Qed.

Lemma profile_submit_outcome_witness :
  sdk_calls (trace (handleSubmit accepting None
                      {| firstName := "Ada"; lastName := "Byron" |})) = [].
Proof.
  apply (profile_submit_outcome accepting None
           {| firstName := "Ada"; lastName := "Byron" |}).
  reflexivity.
Defined.

(** X10: without a user, or for a user whose display name is [null] or
    empty, the form starts with both fields empty. *)
Theorem initialFormData_without_name (user : option User) :
  (forall u, user = Some u ->
             displayName u = None \/ displayName u = Some EmptyString) ->
  initialFormData user = {| firstName := ""; lastName := "" |}.
Proof.
  intros H. destruct user as [u|]; [|reflexivity].
  unfold initialFormData, name_part.
  destruct (H u eq_refl) as [-> | ->]; reflexivity.
Qed.

Lemma initialFormData_without_name_witness :
  initialFormData (Some (mkUser "u-9" (Some "new@example.org") None))
  = {| firstName := ""; lastName := "" |}.
Proof.
  apply initialFormData_without_name.
  intros u Hu. injection Hu as <-. left. reflexivity.
Defined.

(** X11: a display name of one word round-trips too.  The form starts
    with the word as first name and an empty last name, and submitting it
    unchanged sends the word back, without the space the handler puts
    between the two fields. *)
Theorem profile_one_word_round_trip (sdk : Sdk) (u : User) (w : string) :
  is_word w = true ->
  displayName u = Some w ->
  initialFormData (Some u) = {| firstName := w; lastName := "" |}
  /\ sdk_calls (trace (handleSubmit sdk (Some u) (initialFormData (Some u))))
     = [updateProfile u w].
Proof.
  intros Hw Hname.
  assert (Hinit : initialFormData (Some u)
                  = {| firstName := w; lastName := "" |}).
  { unfold initialFormData, name_part.
    rewrite Hname, (split_no_space w (word_no_white_space w Hw)).
    unfold index. simpl nth_error.
    rewrite (or_else_word w (word_nonempty w Hw)). reflexivity. }
  split; [exact Hinit|].
  rewrite sdk_calls_signed_in, Hinit. unfold fullName. simpl firstName.
  simpl lastName.
  rewrite (trim_word_then_white_space w (" " +:+ "") Hw eq_refl).
  reflexivity.
Qed.

Lemma profile_one_word_round_trip_witness :
  let u := mkUser "u-3" (Some "cher@example.org") (Some "Cher") in
  initialFormData (Some u) = {| firstName := "Cher"; lastName := "" |}
  /\ sdk_calls (trace (handleSubmit accepting (Some u)
                         (initialFormData (Some u))))
     = [updateProfile u "Cher"].
Proof.
  intros u. apply (profile_one_word_round_trip accepting u "Cher");
    reflexivity.
Defined.



(** X13: saving and loading again gives the form back.  When both fields
    hold one word each, the form initialised from the display name the
    handler sends is the form that was submitted. *)
Theorem profile_save_then_load (u : User) (formData : FormData) :
  is_word (firstName formData) = true ->
  is_word (lastName formData) = true ->
  initialFormData
    (Some {| uid := uid u; email := email u;
             displayName := Some (fullName formData) |})
  = formData.
Proof.
  destruct formData as [a b]. simpl. intros Ha Hb.
  rewrite (initialFormData_two_words _ a b Ha Hb); [reflexivity|].
  simpl. unfold fullName. simpl. rewrite (trim_two_words a b Ha Hb).
  reflexivity.
Qed.

Lemma profile_save_then_load_witness :
  initialFormData
    (Some {| uid := uid ada; email := email ada;
             displayName :=
               Some (fullName {| firstName := "Ada"; lastName := "Byron" |}) |})
  = {| firstName := "Ada"; lastName := "Byron" |}.
Proof.
  apply (profile_save_then_load ada {| firstName := "Ada"; lastName := "Byron" |});
    reflexivity.
Defined.

(** X14: the handler does not insist on a name.  When both fields are
    empty or hold white space only, the display name sent to the provider is
    the empty string. *)
Theorem profile_blank_fields_send_empty_name
  (sdk : Sdk) (u : User) (formData : FormData) :
  all_white_space (firstName formData) = true ->
  all_white_space (lastName formData) = true ->
  sdk_calls (trace (handleSubmit sdk (Some u) formData))
  = [updateProfile u ""].
Proof.
  intros Hfirst Hlast. rewrite sdk_calls_signed_in. unfold fullName.
  rewrite trim_all_white_space; [reflexivity|].
  apply all_white_space_append; [exact Hfirst|].
  apply (all_white_space_append " " _ eq_refl Hlast).
Qed.

Lemma profile_blank_fields_send_empty_name_witness :
  sdk_calls (trace (handleSubmit accepting (Some ada)
                      {| firstName := "  "; lastName := "" |}))
  = [updateProfile ada ""].
Proof.
  apply (profile_blank_fields_send_empty_name accepting ada
           {| firstName := "  "; lastName := "" |});
    reflexivity.
Defined.

End ProfileFormMore.

(* ===================================================================== *)
(** ** What the three submit handlers share *)
(* ===================================================================== *)

Module HandlersMore.
Import Runtime TraceChecks TraceFacts Samples.

Lemma login_calls_after_setLoading
  (sdk : Sdk) (email password : string) (requested : option bool) :
  calls_after_setLoading_true requested
    (trace (LoginForm.handleEmailLogin sdk email password)) = true.
Proof.
  destruct (sdk (signInWithEmailAndPassword email password)) as [error|] eqn:E.
  - destruct (@LoginFormFacts.getErrorMessage_run Empty_set error)
      as (log & Hrun & Hlog).
    rewrite (LoginFormFacts.handleEmailLogin_rejected
               sdk email password error log E Hrun).
    destruct Hlog as [-> | ->]; reflexivity.
  - rewrite (LoginFormFacts.handleEmailLogin_resolved sdk email password E).
    reflexivity.
Qed.

Lemma password_calls_after_setLoading
  (sdk : Sdk) (user : option User) (formData : PasswordForm.FormData)
  (requested : option bool) :
  calls_after_setLoading_true requested
    (trace (PasswordForm.handleSubmit sdk user formData)) = true.
Proof.
  PasswordFormFacts.run_handleSubmit sdk user formData; reflexivity.
Qed.

Lemma profile_calls_after_setLoading
  (sdk : Sdk) (user : option User) (formData : ProfileForm.FormData)
  (requested : option bool) :
  calls_after_setLoading_true requested
    (trace (ProfileForm.handleSubmit sdk user formData)) = true.
Proof.
  destruct user as [u|]; [|reflexivity].
  rewrite ProfileFormFacts.handleSubmit_signed_in. reflexivity.
Qed.

(** X15: in the login form, the password form and the profile form, the
    handler has called [setLoading(true)] before each SDK call it makes, and
    has not called [setLoading(false)] since: among the events that come
    before the call, the last [setLoading] is [setLoading(true)].  This is
    about the calls the handler made; React applies the update at the next
    render, so the submit button is not yet disabled at the moment of the
    first SDK call. *)
Theorem setLoading_true_before_sdk_calls
  (sdk : Sdk) (user : option User) :
  (forall email password before op outcome after,
     trace (LoginForm.handleEmailLogin sdk email password)
     = before ++ SdkCall op outcome :: after ->
     last_setLoading before = Some true)
  /\ (forall formData before op outcome after,
        trace (PasswordForm.handleSubmit sdk user formData)
        = before ++ SdkCall op outcome :: after ->
        last_setLoading before = Some true)
  /\ (forall formData before op outcome after,
        trace (ProfileForm.handleSubmit sdk user formData)
        = before ++ SdkCall op outcome :: after ->
        last_setLoading before = Some true).
Proof.
  split; [|split].
  - intros email password before op outcome after H.
    exact (calls_after_setLoading_true_sound _ None
             (login_calls_after_setLoading sdk email password None)
             before op outcome after H).
  - intros formData before op outcome after H.
    exact (calls_after_setLoading_true_sound _ None
             (password_calls_after_setLoading sdk user formData None)
             before op outcome after H).
  - intros formData before op outcome after H.
    exact (calls_after_setLoading_true_sound _ None
             (profile_calls_after_setLoading sdk user formData None)
             before op outcome after H).
Qed.

Lemma setLoading_true_before_sdk_calls_witness :
  last_setLoading
    ([PreventDefault; SetLoading true] : list (Event ProfileForm.FormData))
  = Some true.
Proof.
  destruct (setLoading_true_before_sdk_calls accepting (Some ada))
    as (_ & _ & Hprofile).
  apply (Hprofile {| ProfileForm.firstName := "Ada";
                     ProfileForm.lastName := "Byron" |}
           [PreventDefault; SetLoading true]
           (updateProfile ada "Ada Byron") None
           [ToastShown ProfileForm.profile_updated; SetLoading false]).
  reflexivity.
Defined.

(** X16: the settings handlers never let an error of the provider escape:
    for every provider, user and form data they complete normally, the
    rejection having been turned into a toast. *)
Theorem settings_handlers_never_throw (sdk : Sdk) (user : option User) :
  (forall formData,
     completion (PasswordForm.handleSubmit sdk user formData) = Normal tt)
  /\ (forall formData,
        completion (ProfileForm.handleSubmit sdk user formData) = Normal tt).
Proof.
  split; intros formData.
  - PasswordFormFacts.run_handleSubmit sdk user formData; reflexivity.
  - destruct user as [u|]; [|reflexivity].
    rewrite ProfileFormFacts.handleSubmit_signed_in. reflexivity.
Qed.

(** X17: the settings handlers leave the loading flag cleared whenever
    they reached the SDK, whether the provider accepted or not, and
    untouched when they returned before reaching it. *)
Theorem settings_handlers_reset_loading
  (sdk : Sdk) (user : option User) (loading0 : bool) :
  (forall formData,
     let t := trace (PasswordForm.handleSubmit sdk user formData) in
     final_loading loading0 t
     = match sdk_calls t with [] => loading0 | _ :: _ => false end)
  /\ (forall formData,
        let t := trace (ProfileForm.handleSubmit sdk user formData) in
        final_loading loading0 t
        = match sdk_calls t with [] => loading0 | _ :: _ => false end).
Proof.
  split; intros formData t; subst t.
  - PasswordFormFacts.run_handleSubmit sdk user formData; reflexivity.
  - destruct user as [u|]; [|reflexivity].
    rewrite ProfileFormFacts.handleSubmit_signed_in. reflexivity.
Qed.

End HandlersMore.

(* ===================================================================== *)
(** ** The inputs of the settings forms *)
(* ===================================================================== *)

Module FormInputsMore.
Import Runtime Samples.

(** Typing into the three inputs, in any of the six orders and over any
    previous form data, leaves the form data made of the values typed. *)
Lemma password_inputs_commute
  (prev : PasswordForm.FormData) (cur new conf : string) :
  let typed := {| PasswordForm.currentPassword := cur;
                  PasswordForm.newPassword := new;
                  PasswordForm.confirmPassword := conf |} in
  let c := PasswordFormInputs.onChange_currentPassword in
  let n := PasswordFormInputs.onChange_newPassword in
  let f := PasswordFormInputs.onChange_confirmPassword in
  Forall (fun formData => formData = typed)
    [f conf (n new (c cur prev)); f conf (c cur (n new prev));
     n new (f conf (c cur prev)); n new (c cur (f conf prev));
     c cur (f conf (n new prev)); c cur (n new (f conf prev))].
Proof. destruct prev. repeat constructor. Qed.

Lemma validated_sdk_calls
  (sdk : Sdk) (user : option User) (u : User) (addr cur new : string) :
  PasswordForm.user_email user = Some (u, addr) ->
  6 <= String.length new ->
  let reauth := reauthenticateWithCredential u (credential addr cur) in
  sdk_calls (trace (PasswordForm.handleSubmit sdk user
                      {| PasswordForm.currentPassword := cur;
                         PasswordForm.newPassword := new;
                         PasswordForm.confirmPassword := new |}))
  = reauth :: match sdk reauth with
              | None => [updatePassword u new]
              | Some _ => []
              end.
Proof.
  intros Huser Hlong reauth. subst reauth.
  rewrite (PasswordFormFacts.handleSubmit_validated sdk user
             {| PasswordForm.currentPassword := cur;
                PasswordForm.newPassword := new;
                PasswordForm.confirmPassword := new |}
             u addr Huser eq_refl Hlong).
  cbn [PasswordForm.currentPassword PasswordForm.newPassword].
  destruct (sdk (reauthenticateWithCredential u (credential addr cur)));
    [reflexivity|].
  destruct (sdk (updatePassword u new)); reflexivity.
Qed.

(** X18: what the password form sends depends only on what was typed
    last into each input.  After typing the current password, a new password
    of at least 6 code units and the same as its confirmation, in any of the
    six orders and over any previous form data, the submission of a user
    with an e-mail address reauthenticates with that address and the current
    password typed, and then, when that resolves, updates to the new
    password typed. *)
Theorem password_inputs_then_submit
  (sdk : Sdk) (user : option User) (u : User) (addr : string)
  (prev : PasswordForm.FormData) (cur new : string) :
  PasswordForm.user_email user = Some (u, addr) ->
  6 <= String.length new ->
  let c := PasswordFormInputs.onChange_currentPassword in
  let n := PasswordFormInputs.onChange_newPassword in
  let f := PasswordFormInputs.onChange_confirmPassword in
  let reauth := reauthenticateWithCredential u (credential addr cur) in
  Forall (fun formData =>
            sdk_calls (trace (PasswordForm.handleSubmit sdk user formData))
            = reauth :: match sdk reauth with
                        | None => [updatePassword u new]
                        | Some _ => []
                        end)
    [f new (n new (c cur prev)); f new (c cur (n new prev));
     n new (f new (c cur prev)); n new (c cur (f new prev));
     c cur (f new (n new prev)); c cur (n new (f new prev))].
Proof.
  intros Huser Hlong c n f reauth.
  pose proof (password_inputs_commute prev cur new new) as Htyped.
  cbv zeta in Htyped. subst c n f.
  eapply List.Forall_impl; [|exact Htyped].
  intros formData ->.
  exact (validated_sdk_calls sdk user u addr cur new Huser Hlong).
Qed.

Lemma password_inputs_then_submit_witness :
  Forall (fun formData =>
            sdk_calls (trace (PasswordForm.handleSubmit wrong_password
                                (Some ada) formData))
            = [reauthenticateWithCredential ada
                 (credential "ada@example.org" "old-secret")])
    [PasswordFormInputs.onChange_confirmPassword "new-secret"
       (PasswordFormInputs.onChange_newPassword "new-secret"
          (PasswordFormInputs.onChange_currentPassword "old-secret"
             PasswordFormInputs.initialFormData));
     PasswordFormInputs.onChange_confirmPassword "new-secret"
       (PasswordFormInputs.onChange_currentPassword "old-secret"
          (PasswordFormInputs.onChange_newPassword "new-secret"
             PasswordFormInputs.initialFormData));
     PasswordFormInputs.onChange_newPassword "new-secret"
       (PasswordFormInputs.onChange_confirmPassword "new-secret"
          (PasswordFormInputs.onChange_currentPassword "old-secret"
             PasswordFormInputs.initialFormData));
     PasswordFormInputs.onChange_newPassword "new-secret"
       (PasswordFormInputs.onChange_currentPassword "old-secret"
          (PasswordFormInputs.onChange_confirmPassword "new-secret"
             PasswordFormInputs.initialFormData));
     PasswordFormInputs.onChange_currentPassword "old-secret"
       (PasswordFormInputs.onChange_confirmPassword "new-secret"
          (PasswordFormInputs.onChange_newPassword "new-secret"
             PasswordFormInputs.initialFormData));
     PasswordFormInputs.onChange_currentPassword "old-secret"
       (PasswordFormInputs.onChange_newPassword "new-secret"
          (PasswordFormInputs.onChange_confirmPassword "new-secret"
             PasswordFormInputs.initialFormData))].
Proof.
  apply (password_inputs_then_submit wrong_password (Some ada) ada
           "ada@example.org" PasswordFormInputs.initialFormData
           "old-secret" "new-secret").
  - reflexivity.
  - simpl. lia.
Defined.

(** X19: what the profile form sends depends on what was typed last into
    each input only: after typing a first and a last name, in either order
    and over any previous form data, a signed-in user's submission calls
    [updateProfile] with the two joined by a space and trimmed. *)
Theorem profile_inputs_then_submit
  (sdk : Sdk) (u : User) (prev : ProfileForm.FormData)
  (first last : string) :
  let expected := [updateProfile u (JsString.trim (first +:+ " " +:+ last))] in
  sdk_calls (trace (ProfileForm.handleSubmit sdk (Some u)
              (ProfileFormInputs.onChange_lastName last
                 (ProfileFormInputs.onChange_firstName first prev))))
  = expected
  /\ sdk_calls (trace (ProfileForm.handleSubmit sdk (Some u)
                 (ProfileFormInputs.onChange_firstName first
                    (ProfileFormInputs.onChange_lastName last prev))))
     = expected.
Proof.
  split; rewrite ProfileFormFacts.sdk_calls_signed_in; reflexivity.
Qed.

End FormInputsMore.

(* ===================================================================== *)
(** ** The sidebar provider *)
(* ===================================================================== *)

Module SidebarFacts.
Import Sidebar.

Lemma click_result (p : Provider) :
  click p
  = ({| props := props p; mobile := mobile p;
        open_state := negb (open_state p) |},
     if has_onOpenChange (props p) then [negb (open_state p)] else []).
Proof. reflexivity. Qed.

Lemma step_keeps_props (p : Provider) (a : Action) :
  props (fst (step p a)) = props p.
Proof.
  destruct a as [|m]; simpl; [reflexivity|].
  unfold viewport_change. destruct (Bool.eqb m (mobile p)); reflexivity.
Qed.

Lemma run_cons (p : Provider) (a : Action) (rest : list Action) :
  run p (a :: rest)
  = (fst (run (fst (step p a)) rest),
     snd (step p a) ++ snd (run (fst (step p a)) rest)).
Proof.
  simpl. destruct (step p a) as [p1 n1]. simpl.
  destruct (run p1 rest) as [p2 n2]. reflexivity.
Qed.

Lemma run_app (p : Provider) (xs ys : list Action) :
  run p (xs ++ ys)
  = (fst (run (fst (run p xs)) ys),
     snd (run p xs) ++ snd (run (fst (run p xs)) ys)).
Proof.
  revert p. induction xs as [|a xs IH]; intros p.
  - simpl. destruct (run p ys). reflexivity.
  - rewrite <- app_comm_cons, !run_cons, IH. simpl.
    rewrite app_assoc. reflexivity.
Qed.

(** X20: once mounted, the provider is open exactly when the layout is not
    the mobile one, whatever [defaultOpen] was: the prop decides the first
    render only, then the effect overrides it. *)
Theorem mount_overrides_defaultOpen (ps : SidebarProviderProps) (m : bool) :
  isOpen (render (first_render ps m))
  = match defaultOpen ps with Some b => b | None => true end
  /\ isOpen (render (mount ps m)) = negb m
  /\ isCollapsible (render (mount ps m)) = negb m
  /\ data_state (render (mount ps m)) = (if m then "closed" else "open").
Proof. destruct m; repeat split. Qed.

(** X21: clicks on the trigger toggle.  After [n] clicks, each followed by
    a render, the provider is open as before when [n] is even and the other
    way round when [n] is odd; the layout is unchanged, and the owner's
    callback, when there is one, was called once per click. *)
Theorem clicks_toggle (n : nat) :
  forall p : Provider,
    open_state (fst (run p (repeat Click n)))
    = (if Nat.even n then open_state p else negb (open_state p))
    /\ mobile (fst (run p (repeat Click n))) = mobile p
    /\ length (snd (run p (repeat Click n)))
       = (if has_onOpenChange (props p) then n else 0).
Proof.
  induction n as [|n IH]; intros p.
  - simpl. destruct (has_onOpenChange (props p)); repeat split.
  - change (repeat Click (S n)) with (Click :: repeat Click n).
    rewrite run_cons. cbn [fst snd step]. rewrite click_result. cbn [fst snd].
    destruct (IH {| props := props p; mobile := mobile p;
                    open_state := negb (open_state p) |})
      as (Hopen & Hmobile & Hnotes).
    cbn [props mobile open_state] in *.
    rewrite Hopen, Hmobile, length_app, Hnotes.
    rewrite Nat.even_succ, <- Nat.negb_even.
    destruct (Nat.even n), (has_onOpenChange (props p)), (open_state p);
      repeat split.
Qed.

(** X22: the owner's callback hears of clicks and of nothing else.  Over
    any run of clicks and layout changes it is called once per click when
    the provider was given one, so the opening and closing the layout
    change causes is never reported to it. *)
Theorem owner_notified_of_clicks_only (actions : list Action) :
  forall p : Provider,
    length (snd (run p actions))
    = (if has_onOpenChange (props p) then clicks actions else 0).
Proof.
  induction actions as [|a rest IH]; intros p.
  - simpl. destruct (has_onOpenChange (props p)); reflexivity.
  - rewrite run_cons. cbn [snd]. rewrite length_app, IH, step_keeps_props.
    destruct a as [|m].
    + cbn [step]. rewrite click_result. cbn [snd].
      destruct (has_onOpenChange (props p)); reflexivity.
    + cbn [step]. unfold viewport_change.
      destruct (Bool.eqb m (mobile p)), (has_onOpenChange (props p));
        reflexivity.
Qed.

(** X23: right after a click the owner and the provider agree.  For a
    provider that was given a callback, the last value handed to it by a run
    that ends with a click is the state of the provider. *)
Theorem owner_in_sync_after_click
  (p : Provider) (actions : list Action) (d : bool) :
  has_onOpenChange (props p) = true ->
  List.last (snd (run p (actions ++ [Click]))) d
  = open_state (fst (run p (actions ++ [Click]))).
Proof.
  intros Hcb. rewrite run_app. cbn [fst snd].
  set (q := fst (run p actions)).
  assert (Hq : has_onOpenChange (props q) = true).
  { subst q. clear d. revert p Hcb.
    induction actions as [|a rest IH]; intros p Hcb; [exact Hcb|].
    rewrite run_cons. cbn [fst]. apply IH.
    rewrite step_keeps_props. exact Hcb. }
  change (run q [Click]) with
    (let (p1, n1) := click q in (p1, n1 ++ [])).
  rewrite click_result, Hq. cbn [fst snd app].
  rewrite List.last_last. reflexivity.
Qed.

Lemma owner_in_sync_after_click_witness :
  let p := mount {| defaultOpen := None; has_onOpenChange := true |} false in
  List.last (snd (run p ([Click; Viewport true] ++ [Click]))) true
  = open_state (fst (run p ([Click; Viewport true] ++ [Click]))).
Proof.
  intros p. apply (owner_in_sync_after_click p [Click; Viewport true] true).
  reflexivity.
Defined.

(** X24: the provider does not remember what the user chose.  On the
    desktop layout, whatever the state, a change to the mobile layout closes
    the sidebar and the change back opens it, and the owner's callback is
    called for neither. *)
Theorem layout_round_trip_reopens (p : Provider) :
  mobile p = false ->
  open_state (fst (run p [Viewport true])) = false
  /\ open_state (fst (run p [Viewport true; Viewport false])) = true
  /\ snd (run p [Viewport true; Viewport false]) = [].
Proof.
  intros Hdesktop. destruct p as [ps m o]. simpl in Hdesktop. subst m.
  repeat split.
Qed.

Lemma layout_round_trip_reopens_witness :
  let p := fst (click (mount {| defaultOpen := Some true;
                                has_onOpenChange := true |} false)) in
  open_state p = false
  /\ open_state (fst (run p [Viewport true; Viewport false])) = true.
Proof.
  intros p. split; [reflexivity|].
  apply (layout_round_trip_reopens p). reflexivity.
Defined.

End SidebarFacts.
